(** * EchoBot 9000: the chat endpoint of netlify/functions/api.js

    A shallow embedding of the Express handler [app.post('/chat', ...)]
    and of the JavaScript built-ins it calls, followed by the properties
    of its request/response contract. *)

From Stdlib Require Import ZArith List Bool String Ascii Lia.
From Stdlib Require Import Floats.PrimFloat.
Import ListNotations.
Local Open Scope Z_scope.
Local Set Warnings "-register-all".

(** ** JavaScript strings

    A JavaScript string is a sequence of UTF-16 code units; a code unit is
    kept as a [Z] in [0, 65535]. *)

Definition jsstring := list Z.

(** A string literal of the source (all of them are ASCII). *)
Definition js (s : string) : jsstring :=
  map (fun a => Z.of_N (N_of_ascii a)) (list_ascii_of_string s).

(** [a === b] on two strings. *)
Fixpoint string_eqb (a b : jsstring) : bool :=
  match a, b with
  | [], [] => true
  | x :: a', y :: b' => (x =? y) && string_eqb a' b'
  | _, _ => false
  end.

(** ECMA-262 WhiteSpace and LineTerminator code points, the ones
    [String.prototype.trim] strips. *)
Definition isWhiteSpace (c : Z) : bool :=
  (c =? 9) || (c =? 10) || (c =? 11) || (c =? 12) || (c =? 13) || (c =? 32)
  || (c =? 160) || (c =? 5760) || ((8192 <=? c) && (c <=? 8202))
  || (c =? 8232) || (c =? 8233) || (c =? 8239) || (c =? 8287)
  || (c =? 12288) || (c =? 65279).

Fixpoint trimStart (s : jsstring) : jsstring :=
  match s with
  | c :: rest => if isWhiteSpace c then trimStart rest else s
  | [] => []
  end.

Definition trimEnd (s : jsstring) : jsstring := rev (trimStart (rev s)).

(** [s.trim()] *)
Definition trim (s : jsstring) : jsstring := trimEnd (trimStart s).

Fixpoint startsWith (s needle : jsstring) {struct needle} : bool :=
  match needle, s with
  | [], _ => true
  | n :: needle', c :: s' => (c =? n) && startsWith s' needle'
  | _ :: _, [] => false
  end.

(** [s.includes(needle)] *)
Fixpoint includes (s needle : jsstring) : bool :=
  match s with
  | [] => startsWith [] needle
  | _ :: rest => startsWith s needle || includes rest needle
  end.

Definition isAscii (c : Z) : bool := (0 <=? c) && (c <? 128).

(** Case mapping of the Basic Latin block. *)
Definition asciiLower (c : Z) : Z :=
  if (65 <=? c) && (c <=? 90) then c + 32 else c.

Definition asciiUpper (c : Z) : Z :=
  if (97 <=? c) && (c <=? 122) then c - 32 else c.

(** ** The runtime

    What the handler takes from the JavaScript engine and cannot be read
    off the source: the Unicode case mapping outside Basic Latin (which is
    context sensitive and may produce several code units, or none for the
    second half of a surrogate pair; white space has no case mapping), and
    the wording of the engine's TypeErrors.  A mapping receives the code
    units before the current one (nearest first), the code unit, and the
    code units after it. *)

Inductive TypeErrorKind :=
| CannotDestructure      (* const { p } = undefined / null *)
| NotAFunction.          (* v.m() where v.m is undefined    *)

Record Runtime := {
  lowerExt : jsstring -> Z -> jsstring -> jsstring;
  upperExt : jsstring -> Z -> jsstring -> jsstring;
  typeErrorText : TypeErrorKind -> jsstring -> jsstring
}.

Fixpoint lowerFrom (rt : Runtime) (before s : jsstring) : jsstring :=
  match s with
  | [] => []
  | c :: rest =>
      (if isAscii c then [asciiLower c]
       else if isWhiteSpace c then [c]
       else lowerExt rt before c rest)
      ++ lowerFrom rt (c :: before) rest
  end.

Fixpoint upperFrom (rt : Runtime) (before s : jsstring) : jsstring :=
  match s with
  | [] => []
  | c :: rest =>
      (if isAscii c then [asciiUpper c]
       else if isWhiteSpace c then [c]
       else upperExt rt before c rest)
      ++ upperFrom rt (c :: before) rest
  end.

(** [s.toLowerCase()] and [s.toUpperCase()] *)
Definition toLowerCase (rt : Runtime) (s : jsstring) : jsstring :=
  lowerFrom rt [] s.

Definition toUpperCase (rt : Runtime) (s : jsstring) : jsstring :=
  upperFrom rt [] s.

(** ** JavaScript values

    What [express.json()] can leave in [req.body], and what the handler
    passes to [res.json]. *)

Inductive JSValue :=
| VUndefined
| VNull
| VBool (b : bool)
| VNumber (x : float)
| VString (s : jsstring)
| VArray (items : list JSValue)
| VObject (props : list (jsstring * JSValue)).

(** ToBoolean, the test behind [!v]. *)
Definition ToBoolean (v : JSValue) : bool :=
  match v with
  | VUndefined | VNull => false
  | VBool b => b
  | VNumber x => negb (is_zero x || is_nan x)
  | VString s => negb (string_eqb s [])
  | VArray _ | VObject _ => true
  end.

(** [typeof v] *)
Definition typeof (v : JSValue) : jsstring :=
  match v with
  | VUndefined => js "undefined"
  | VNull => js "object"
  | VBool _ => js "boolean"
  | VNumber _ => js "number"
  | VString _ => js "string"
  | VArray _ | VObject _ => js "object"
  end.

(** Own property lookup in an object literal or a parsed JSON object. *)
Fixpoint getOwn (props : list (jsstring * JSValue)) (key : jsstring)
  : option JSValue :=
  match props with
  | [] => None
  | (k, v) :: rest => if string_eqb k key then Some v else getOwn rest key
  end.

(** [v.key] for a key that no prototype defines: the own property of an
    object, [undefined] otherwise. *)
Definition getProp (v : JSValue) (key : jsstring) : JSValue :=
  match v with
  | VObject props =>
      match getOwn props key with Some x => x | None => VUndefined end
  | _ => VUndefined
  end.

(** ** Exceptions *)

Record JSError := { errName : jsstring; errMessage : jsstring }.

Inductive Throws (A : Type) :=
| Return (a : A)
| Throw (e : JSError).
Arguments Return {A} a.
Arguments Throw {A} e.

Definition bind {A B} (m : Throws A) (k : A -> Throws B) : Throws B :=
  match m with
  | Return a => k a
  | Throw e => Throw e
  end.

Declare Scope throws_scope.
Delimit Scope throws_scope with throws.
Notation "x <- m ;; k" := (bind m (fun x => k))
  (at level 61, m at next level, right associativity) : throws_scope.

(** [try { block } catch (error) { handler }] *)
Definition tryCatch {A} (block : Throws A) (handler : JSError -> Throws A)
  : Throws A :=
  match block with
  | Return a => Return a
  | Throw error => handler error
  end.

Definition TypeError (rt : Runtime) (k : TypeErrorKind) (what : jsstring)
  : JSError :=
  {| errName := js "TypeError"; errMessage := typeErrorText rt k what |}.

(** [const { key } = v]: a TypeError when [v] is undefined or null. *)
Definition destructure (rt : Runtime) (v : JSValue) (key : jsstring)
  : Throws JSValue :=
  match v with
  | VUndefined | VNull => Throw (TypeError rt CannotDestructure key)
  | _ => Return (getProp v key)
  end.

(** A call [v.m()] of a String.prototype method [m] implemented by [f]:
    only a string has the method. *)
Definition callString (rt : Runtime) (v : JSValue) (m : jsstring)
  (f : jsstring -> jsstring) : Throws jsstring :=
  match v with
  | VString s => Return (f s)
  | _ => Throw (TypeError rt NotAFunction m)
  end.

(** ** Dates

    ECMA-262, "Date Objects": a time value is a number of milliseconds
    since 1970-01-01T00:00:00Z; [toISOString] prints it in UTC as
    YYYY-MM-DDTHH:mm:ss.sssZ, with a sign and six digits for a year
    outside [0, 9999]. *)

Module Date.

Definition msPerDay : Z := 86400000.

(** The largest time value of a Date, 100,000,000 days. *)
Definition maxTime : Z := 8640000000000000.

Definition Day (t : Z) : Z := t / msPerDay.
Definition TimeWithinDay (t : Z) : Z := t mod msPerDay.

Definition DaysInYear (y : Z) : Z :=
  if negb (y mod 4 =? 0) then 365
  else if negb (y mod 100 =? 0) then 366
  else if negb (y mod 400 =? 0) then 365
  else 366.

Definition DayFromYear (y : Z) : Z :=
  365 * (y - 1970) + (y - 1969) / 4 - (y - 1901) / 100 + (y - 1601) / 400.

(** The year of a day number: the largest [y] with [DayFromYear y <= day].
    A Gregorian year has 146097/400 days on average, which places the
    year within one of the estimate. *)
Definition YearFromDay (day : Z) : Z :=
  let y := 1970 + (400 * day) / 146097 in
  if day <? DayFromYear y then y - 1
  else if DayFromYear (y + 1) <=? day then y + 1
  else y.

Definition InLeapYear (y : Z) : Z := if DaysInYear y =? 366 then 1 else 0.

(** Day number, within a year, of the first day of month [m] (0 to 12). *)
Definition monthStart (leap m : Z) : Z :=
  match m with
  | 0 => 0
  | 1 => 31
  | 2 => 59 + leap
  | 3 => 90 + leap
  | 4 => 120 + leap
  | 5 => 151 + leap
  | 6 => 181 + leap
  | 7 => 212 + leap
  | 8 => 243 + leap
  | 9 => 273 + leap
  | 10 => 304 + leap
  | 11 => 334 + leap
  | _ => 365 + leap
  end.

(** MonthFromTime, on the day within the year: 0 is January. *)
Definition monthOf (leap d : Z) : Z :=
  if d <? 31 then 0
  else if d <? 59 + leap then 1
  else if d <? 90 + leap then 2
  else if d <? 120 + leap then 3
  else if d <? 151 + leap then 4
  else if d <? 181 + leap then 5
  else if d <? 212 + leap then 6
  else if d <? 243 + leap then 7
  else if d <? 273 + leap then 8
  else if d <? 304 + leap then 9
  else if d <? 334 + leap then 10
  else 11.

Definition digit (d : Z) : Z := 48 + d.

(** [n] in [width] decimal digits, zero padded. *)
Fixpoint padded (width : nat) (n : Z) : jsstring :=
  match width with
  | O => []
  | S w => padded w (n / 10) ++ [digit (n mod 10)]
  end.

Definition yearString (y : Z) : jsstring :=
  if (0 <=? y) && (y <=? 9999) then padded 4 y
  else (if y <? 0 then js "-" else js "+") ++ padded 6 (Z.abs y).

(** [new Date(t).toISOString()] for a valid time value [t]. *)
Definition toISOString (t : Z) : jsstring :=
  let day := Day t in
  let ms := TimeWithinDay t in
  let y := YearFromDay day in
  let leap := InLeapYear y in
  let d := day - DayFromYear y in
  let m := monthOf leap d in
  yearString y ++ js "-" ++ padded 2 (m + 1) ++ js "-"
  ++ padded 2 (d - monthStart leap m + 1) ++ js "T"
  ++ padded 2 (ms / 3600000) ++ js ":"
  ++ padded 2 (ms / 60000 mod 60) ++ js ":"
  ++ padded 2 (ms / 1000 mod 60) ++ js "."
  ++ padded 3 (ms mod 1000) ++ js "Z".

(** Reading the format back, as [Date.parse] does. *)

Fixpoint digits (width : nat) (acc : Z) (s : jsstring)
  : option (Z * jsstring) :=
  match width with
  | O => Some (acc, s)
  | S w =>
      match s with
      | c :: rest =>
          if (48 <=? c) && (c <=? 57)
          then digits w (10 * acc + (c - 48)) rest
          else None
      | [] => None
      end
  end.

Definition expect (c : Z) (s : jsstring) : option jsstring :=
  match s with
  | x :: rest => if x =? c then Some rest else None
  | [] => None
  end.

(** A year: four digits, or a sign and six digits (and no "-000000"). *)
Definition parseYear (s : jsstring) : option (Z * jsstring) :=
  match s with
  | c :: rest =>
      if c =? 43 then digits 6 0 rest
      else if c =? 45 then
        match digits 6 0 rest with
        | Some (y, rest') => if y =? 0 then None else Some (- y, rest')
        | None => None
        end
      else digits 4 0 s
  | [] => None
  end.

Definition bindO {A B} (m : option A) (k : A -> option B) : option B :=
  match m with
  | Some a => k a
  | None => None
  end.

Definition inRange (lo x hi : Z) : bool := (lo <=? x) && (x <=? hi).

(** [Date.parse(s)] on the format of [toISOString]; [None] stands for NaN. *)
Definition parse (s : jsstring) : option Z :=
  bindO (parseYear s) (fun '(y, s) =>
  bindO (expect 45 s) (fun s =>
  bindO (digits 2 0 s) (fun '(mo, s) =>
  bindO (expect 45 s) (fun s =>
  bindO (digits 2 0 s) (fun '(d, s) =>
  bindO (expect 84 s) (fun s =>
  bindO (digits 2 0 s) (fun '(h, s) =>
  bindO (expect 58 s) (fun s =>
  bindO (digits 2 0 s) (fun '(mi, s) =>
  bindO (expect 58 s) (fun s =>
  bindO (digits 2 0 s) (fun '(sec, s) =>
  bindO (expect 46 s) (fun s =>
  bindO (digits 3 0 s) (fun '(ms, s) =>
  bindO (expect 90 s) (fun s =>
  let leap := InLeapYear y in
  if string_eqb s [] && inRange 1 mo 12
     && inRange 1 d (monthStart leap mo - monthStart leap (mo - 1))
     && inRange 0 h 23 && inRange 0 mi 59 && inRange 0 sec 59
  then
    let t := (DayFromYear y + monthStart leap (mo - 1) + d - 1) * msPerDay
             + h * 3600000 + mi * 60000 + sec * 1000 + ms in
    if inRange (- maxTime) t maxTime then Some t else None
  else None)))))))))))))).

End Date.

(** ** The handler *)

Record Request := { body : JSValue }.

(** What [res.status(code).json(value)] sends. *)
Record Response := { status : Z; json : JSValue }.

Local Open Scope throws_scope.

(** [!message || typeof message !== 'string' || message.trim() === ''],
    with the short circuit of [||]. *)
Definition validationFails (rt : Runtime) (message : JSValue) : Throws bool :=
  if negb (ToBoolean message) then Return true
  else if negb (string_eqb (typeof message) (js "string")) then Return true
  else
    trimmed <- callString rt message (js "trim") trim ;;
    Return (string_eqb trimmed (js "")).

(** The [try] block of the handler.  [now] is the time value the clock
    gives to the [new Date()] of the response; what the handler writes to
    the console is not part of the response and is left out. *)
Definition chatTry (rt : Runtime) (now : Z) (req : Request) : Throws Response :=
  message <- destructure rt (body req) (js "message") ;;
  invalid <- validationFails rt message ;;
  if invalid then
    Return {| status := 400;
              json := VObject
                [ (js "error",
                   VString
                     (js "Message is required and must be a non-empty string."));
                  (js "backendSignature",
                   VString (js "Error processed by EchoBot 9000 @ "
                            ++ Date.toISOString now)) ] |}
  else
    lowerCaseMessage <-
      callString rt message (js "toLowerCase") (toLowerCase rt) ;;
    botResponse <-
      (if includes lowerCaseMessage (js "hello")
          || includes lowerCaseMessage (js "hi")
       then Return (js "Greetings, human! How can I assist you?")
       else
         upper <- callString rt message (js "toUpperCase") (toUpperCase rt) ;;
         Return (js "BOT SAYS: " ++ upper)) ;;
    let backendSignature :=
      js "Processed by EchoBot 9000 @ " ++ Date.toISOString now in
    Return {| status := 200;
              json := VObject
                [ (js "response", VString botResponse);
                  (js "backendSignature", VString backendSignature) ] |}.

(** The [catch (error)] block. *)
Definition chatCatch (now : Z) (error : JSError) : Response :=
  {| status := 500;
     json := VObject
       [ (js "error",
          VString
            (js "An unexpected error occurred while processing your request."));
         (js "details", VString (errMessage error));
         (js "backendSignature",
          VString (js "Error processed by EchoBot 9000 @ "
                   ++ Date.toISOString now)) ] |}.

(** [app.post('/chat', async (req, res) => { try { ... } catch (error) { ... } })]:
    a run of the handler, [now] being the clock reading. *)
Definition chatHandler (rt : Runtime) (now : Z) (req : Request)
  : Throws Response :=
  tryCatch (chatTry rt now req) (fun error => Return (chatCatch now error)).

(** The response the handler sends. *)
Definition chat (rt : Runtime) (now : Z) (req : Request) : Response :=
  match chatTry rt now req with
  | Return response => response
  | Throw error => chatCatch now error
  end.

(** A runtime to run the examples with: it leaves every code unit outside
    Basic Latin as it is. *)
Definition asciiRuntime : Runtime :=
  {| lowerExt := fun _ c _ => [c];
     upperExt := fun _ c _ => [c];
     typeErrorText := fun k what =>
       match k with
       | CannotDestructure =>
           js "Cannot destructure property '" ++ what
           ++ js "' of 'req.body' as it is undefined."
       | NotAFunction => js "message." ++ what ++ js " is not a function"
       end |}.

(** ** The wire contract

    The signature and the three bodies of the HTTP contract, as the
    specification lists them: validation failure, success with a reply,
    internal failure with the fault's description. *)

Definition botName : jsstring := js "EchoBot 9000".

(** "<Processed|Error processed> by <bot-name> @ <ISO-8601 timestamp>" *)
Definition signature (tag : jsstring) (now : Z) : jsstring :=
  tag ++ js " by " ++ botName ++ js " @ " ++ Date.toISOString now.

Definition validationMessage : jsstring :=
  js "Message is required and must be a non-empty string.".

Definition greeting : jsstring :=
  js "Greetings, human! How can I assist you?".

Definition internalMessage : jsstring :=
  js "An unexpected error occurred while processing your request.".

Definition badRequest (now : Z) : Response :=
  {| status := 400;
     json := VObject
       [ (js "error", VString validationMessage);
         (js "backendSignature",
          VString (signature (js "Error processed") now)) ] |}.

Definition ok (now : Z) (reply : jsstring) : Response :=
  {| status := 200;
     json := VObject
       [ (js "response", VString reply);
         (js "backendSignature", VString (signature (js "Processed") now)) ] |}.

Definition internalError (now : Z) (details : jsstring) : Response :=
  {| status := 500;
     json := VObject
       [ (js "error", VString internalMessage);
         (js "details", VString details);
         (js "backendSignature",
          VString (signature (js "Error processed") now)) ] |}.

(** The names of the fields of a JSON body, in order. *)
Definition fieldNames (v : JSValue) : list jsstring :=
  match v with
  | VObject props => map fst props
  | _ => []
  end.

(** A request's [message] is rejected when it is absent ([undefined]), is
    not a string, or is empty once trimmed. *)
Definition rejected (message : JSValue) : Prop :=
  match message with
  | VString s => trim s = []
  | _ => True
  end.

(** The greeting rule: the lower-cased message contains "hello" or "hi". *)
Definition greets (lowerCaseMessage : jsstring) : bool :=
  includes lowerCaseMessage (js "hello") || includes lowerCaseMessage (js "hi").

(** A request whose JSON body is [{"message": message}]. *)
Definition post (message : JSValue) : Request :=
  {| body := VObject [(js "message", message)] |}.

(** ** The page: public/index.html

    The script of the page keeps its state in the document: the thread of
    messages (the children of [#chat-messages]), the input field, the send
    button and the class list of the loading indicator.  Scrolling, which
    depends on layout, and console output are left out. *)

Inductive Node :=
| TextNode (data : jsstring)
| Element (tagName className : jsstring) (childNodes : list Node).

Record Page := {
  chatMessages : list Node;
  inputValue : jsstring;
  inputDisabled : bool;
  inputFocused : bool;
  buttonDisabled : bool;
  loadingClasses : list jsstring
}.

(** What the page takes from the browser and cannot be read off the
    source: ToString of a number, an array or an object, and the wording of
    the TypeError for a property read on [null]. *)
Record Browser := {
  stringOf : JSValue -> jsstring;
  nullReadText : jsstring -> jsstring
}.

(** ToString, as a template literal applies it. *)
Definition ToString (b : Browser) (v : JSValue) : jsstring :=
  match v with
  | VUndefined => js "undefined"
  | VNull => js "null"
  | VBool true => js "true"
  | VBool false => js "false"
  | VString s => s
  | VNumber _ | VArray _ | VObject _ => stringOf b v
  end.

(** [node.textContent = v]: the children of the node afterwards.  The
    attribute is a nullable string: [null] and [undefined] stand for the
    empty string, and the empty string leaves no text node. *)
Definition setTextContent (b : Browser) (v : JSValue) : list Node :=
  let text := match v with
              | VUndefined | VNull => []
              | _ => ToString b v
              end in
  match text with
  | [] => []
  | _ :: _ => [TextNode text]
  end.

(** [classList.remove(token)] and [classList.add(token)] *)
Definition classList_remove (token : jsstring) (classes : list jsstring)
  : list jsstring :=
  filter (fun c => negb (string_eqb c token)) classes.

Definition classList_add (token : jsstring) (classes : list jsstring)
  : list jsstring :=
  if existsb (fun c => string_eqb c token) classes then classes
  else classes ++ [token].

(** [messageInput.disabled = flag]: an element that is disabled while it
    has the focus loses it. *)
Definition setInputDisabled (flag : bool) (p : Page) : Page :=
  {| chatMessages := chatMessages p;
     inputValue := inputValue p;
     inputDisabled := flag;
     inputFocused := if flag then false else inputFocused p;
     buttonDisabled := buttonDisabled p;
     loadingClasses := loadingClasses p |}.

(** [messageInput.focus()]: a disabled element cannot take the focus. *)
Definition focusInput (p : Page) : Page :=
  {| chatMessages := chatMessages p;
     inputValue := inputValue p;
     inputDisabled := inputDisabled p;
     inputFocused := if inputDisabled p then inputFocused p else true;
     buttonDisabled := buttonDisabled p;
     loadingClasses := loadingClasses p |}.

Definition setInputValue (value : jsstring) (p : Page) : Page :=
  {| chatMessages := chatMessages p;
     inputValue := value;
     inputDisabled := inputDisabled p;
     inputFocused := inputFocused p;
     buttonDisabled := buttonDisabled p;
     loadingClasses := loadingClasses p |}.

Definition setButtonDisabled (flag : bool) (p : Page) : Page :=
  {| chatMessages := chatMessages p;
     inputValue := inputValue p;
     inputDisabled := inputDisabled p;
     inputFocused := inputFocused p;
     buttonDisabled := flag;
     loadingClasses := loadingClasses p |}.

Definition setLoadingClasses (classes : list jsstring) (p : Page) : Page :=
  {| chatMessages := chatMessages p;
     inputValue := inputValue p;
     inputDisabled := inputDisabled p;
     inputFocused := inputFocused p;
     buttonDisabled := buttonDisabled p;
     loadingClasses := classes |}.

(** [chatMessagesDiv.appendChild(node)] *)
Definition appendMessage (node : Node) (p : Page) : Page :=
  {| chatMessages := chatMessages p ++ [node];
     inputValue := inputValue p;
     inputDisabled := inputDisabled p;
     inputFocused := inputFocused p;
     buttonDisabled := buttonDisabled p;
     loadingClasses := loadingClasses p |}.

(** [function displayMessage(sender, message, backendSignature = null)]:
    an argument left out or [undefined] takes the default. *)
Definition displayMessage (b : Browser) (sender : jsstring)
  (message backendSignature : JSValue) (p : Page) : Page :=
  let backendSignature :=
    match backendSignature with
    | VUndefined => VNull
    | v => v
    end in
  let text := setTextContent b message in
  let messageWrapper :=
    if string_eqb sender (js "user") then
      Element (js "div") (js "flex justify-end mb-3")
        [ Element (js "div")
            (js "bg-blue-100 text-blue-900 p-3 rounded-lg max-w-[80%] shadow-sm")
            text ]
    else
      Element (js "div") (js "flex justify-start mb-3")
        [ Element (js "div")
            (js "bg-gray-100 text-gray-800 p-3 rounded-lg max-w-[80%] shadow-sm")
            (if ToBoolean backendSignature then
               text
               ++ [ Element (js "span")
                      (js "block text-xs text-gray-500 mt-1 opacity-75")
                      (setTextContent b backendSignature) ]
             else text) ] in
  appendMessage messageWrapper p.

(** The argument of [fetch]: [payload] is the value whose
    [JSON.stringify] is the body of the request. *)
Record FetchRequest := {
  url : jsstring;
  method : jsstring;
  headers : list (jsstring * jsstring);
  payload : JSValue
}.

(** What [await fetch(...)] gives: a rejection, or a response with its
    status and what [await response.json()] gives in turn. *)
Inductive FetchResult :=
| Rejected (error : JSError)
| Resolved (httpStatus : Z) (parsed : Throws JSValue).

(** [response.ok] *)
Definition responseOk (httpStatus : Z) : bool :=
  (200 <=? httpStatus) && (httpStatus <=? 299).

(** [data.key] on what [response.json()] gave: a TypeError on [null]. *)
Definition readProp (b : Browser) (data : JSValue) (key : jsstring)
  : Throws JSValue :=
  match data with
  | VUndefined | VNull =>
      Throw {| errName := js "TypeError"; errMessage := nullReadText b key |}
  | _ => Return (getProp data key)
  end.

(** [sendMessage], up to the [await fetch(...)]: [None] when it returns
    at once, otherwise the page while the request is under way and the
    request. *)
Definition sendMessageBegin (b : Browser) (p : Page)
  : option (Page * FetchRequest) :=
  let userMessage := trim (inputValue p) in
  if negb (ToBoolean (VString userMessage)) then None
  else
    let p := setInputDisabled true p in
    let p := setButtonDisabled true p in
    let p := setLoadingClasses
               (classList_remove (js "hidden") (loadingClasses p)) p in
    let p := displayMessage b (js "user") (VString userMessage) VUndefined p in
    Some (p, {| url := js "/api/chat";
                method := js "POST";
                headers := [(js "Content-Type", js "application/json")];
                payload := VObject [(js "message", VString userMessage)] |}).

(** The [try] block, from the result of [fetch] on. *)
Definition sendMessageTry (b : Browser) (result : FetchResult) (p : Page)
  : Throws Page :=
  match result with
  | Rejected error => Throw error
  | Resolved httpStatus parsed =>
      data <- parsed ;;
      if responseOk httpStatus then
        response <- readProp b data (js "response") ;;
        backendSignature <- readProp b data (js "backendSignature") ;;
        Return (displayMessage b (js "bot") response backendSignature p)
      else
        error <- readProp b data (js "error") ;;
        let errorMessage :=
          if ToBoolean error then error
          else VString (js "An unexpected error occurred on the server.") in
        Return (displayMessage b (js "bot")
                  (VString (js "Error: " ++ ToString b errorMessage))
                  VUndefined p)
  end.

(** The [catch (error)] block. *)
Definition sendMessageCatch (b : Browser) (p : Page) : Page :=
  displayMessage b (js "bot")
    (VString (js "Network error or server unavailable. Please try again."))
    VUndefined p.

(** The [finally] block. *)
Definition sendMessageFinally (p : Page) : Page :=
  let p := setInputValue (js "") p in
  let p := setInputDisabled false p in
  let p := setButtonDisabled false p in
  let p := setLoadingClasses
             (classList_add (js "hidden") (loadingClasses p)) p in
  focusInput p.

(** [sendMessage], from the result of [fetch] on. *)
Definition sendMessageEnd (b : Browser) (result : FetchResult) (p : Page)
  : Page :=
  sendMessageFinally
    (match sendMessageTry b result p with
     | Return p' => p'
     | Throw _ => sendMessageCatch b p
     end).

(** [async function sendMessage()], the network answering a request with
    [network]. *)
Definition sendMessage (b : Browser) (network : FetchRequest -> FetchResult)
  (p : Page) : Page :=
  match sendMessageBegin b p with
  | None => p
  | Some (p', request) => sendMessageEnd b (network request) p'
  end.

(** The [keypress] listener of the input field. *)
Definition onKeypress (b : Browser) (network : FetchRequest -> FetchResult)
  (key : jsstring) (p : Page) : Page :=
  if string_eqb key (js "Enter") then sendMessage b network p else p.

(** A browser to run the examples with. *)
Definition plainBrowser : Browser :=
  {| stringOf := fun _ => js "[object Object]";
     nullReadText := fun key =>
       js "Cannot read properties of null (reading '" ++ key ++ js "')" |}.

(** The loading indicator's classes in the markup. *)
Definition loadingMarkup : list jsstring :=
  [ js "text-center"; js "text-sm"; js "text-gray-500"; js "mt-3";
    js "hidden"; js "animate-pulse" ].

(** The page with [typed] in the input field and an empty thread. *)
Definition pageWith (typed : jsstring) : Page :=
  {| chatMessages := [];
     inputValue := typed;
     inputDisabled := false;
     inputFocused := true;
     buttonDisabled := false;
     loadingClasses := loadingMarkup |}.

(** The bubbles [displayMessage] builds. *)
Definition userBubble (text : list Node) : Node :=
  Element (js "div") (js "flex justify-end mb-3")
    [ Element (js "div")
        (js "bg-blue-100 text-blue-900 p-3 rounded-lg max-w-[80%] shadow-sm")
        text ].

Definition botBubble (content : list Node) : Node :=
  Element (js "div") (js "flex justify-start mb-3")
    [ Element (js "div")
        (js "bg-gray-100 text-gray-800 p-3 rounded-lg max-w-[80%] shadow-sm")
        content ].

Definition signatureSpan (text : list Node) : Node :=
  Element (js "span") (js "block text-xs text-gray-500 mt-1 opacity-75") text.

(** The texts the page shows when the request fails. *)
Definition networkErrorText : jsstring :=
  js "Network error or server unavailable. Please try again.".

Definition serverErrorText : jsstring :=
  js "An unexpected error occurred on the server.".

(** A network that hands the request body to the handler and the
    handler's answer back to the page, the clock reading [now]; this is
    what the deployment described in api.js does with /api/chat. *)
Definition deliver (rt : Runtime) (now : Z) (request : FetchRequest)
  : FetchResult :=
  let r := chat rt now {| body := payload request |} in
  Resolved (status r) (Return (json r)).

(** * Properties *)

(** ** Strings *)

Lemma string_eqb_eq (a b : jsstring) : string_eqb a b = true <-> a = b.
Proof.
  revert b; induction a as [|x a IH]; intros [|y b]; simpl;
    try (split; [discriminate | congruence]); try tauto.
  rewrite andb_true_iff, Z.eqb_eq, IH.
  split; [intros [-> ->]; reflexivity | intros [= -> ->]; auto].
Qed.

Lemma string_eqb_nil (s : jsstring) : string_eqb s [] = true <-> s = [].
Proof. apply string_eqb_eq. Qed.

Lemma startsWith_app (s needle : jsstring) :
  startsWith s needle = true <-> exists rest, s = needle ++ rest.
Proof.
  revert s; induction needle as [|n needle IH]; intros s; simpl.
  - split; [intros _; exists s; reflexivity | reflexivity].
  - destruct s as [|c s].
    + split; [discriminate | intros [rest H]; discriminate].
    + rewrite andb_true_iff, Z.eqb_eq, IH.
      split.
      * intros [-> [rest ->]]. exists rest. reflexivity.
      * intros [rest [= -> ->]]. split; [reflexivity | exists rest; reflexivity].
Qed.

(** [includes] is substring containment. *)
Lemma includes_app (s needle : jsstring) :
  includes s needle = true <-> exists a b, s = a ++ needle ++ b.
Proof.
  induction s as [|c s IH]; simpl.
  - rewrite startsWith_app. split.
    + intros [rest H]. exists [], rest. exact H.
    + intros [a [b H]]. destruct a as [|x a]; [|discriminate].
      exists b. exact H.
  - rewrite orb_true_iff, startsWith_app, IH. split.
    + intros [[rest H] | [a [b H]]].
      * exists [], rest. exact H.
      * exists (c :: a), b. rewrite H. reflexivity.
    + intros [[|x a] [b H]].
      * left. exists b. exact H.
      * right. injection H as _ H. exists a, b. exact H.
Qed.

(** White space at both ends. *)

Lemma trimStart_split (s : jsstring) :
  exists lead, s = lead ++ trimStart s /\ forallb isWhiteSpace lead = true.
Proof.
  induction s as [|c s [lead [H1 H2]]]; simpl.
  - exists []. split; reflexivity.
  - destruct (isWhiteSpace c) eqn:Hc.
    + exists (c :: lead). simpl. rewrite Hc, H2. split; [congruence | reflexivity].
    + exists []. split; reflexivity.
Qed.

Lemma trimStart_nil (s : jsstring) :
  trimStart s = [] <-> forallb isWhiteSpace s = true.
Proof.
  induction s as [|c s IH]; simpl; [tauto|].
  destruct (isWhiteSpace c); simpl; [exact IH|].
  split; discriminate.
Qed.

Lemma forallb_rev {A} (f : A -> bool) (l : list A) :
  forallb f (rev l) = forallb f l.
Proof.
  induction l as [|x l IH]; simpl; [reflexivity|].
  rewrite forallb_app, IH. simpl. rewrite andb_true_r. apply andb_comm.
Qed.

Lemma trimEnd_split (s : jsstring) :
  exists trail, s = trimEnd s ++ trail /\ forallb isWhiteSpace trail = true.
Proof.
  unfold trimEnd. destruct (trimStart_split (rev s)) as [lead [H1 H2]].
  exists (rev lead). split.
  - rewrite <- rev_app_distr, <- H1, rev_involutive. reflexivity.
  - rewrite forallb_rev. exact H2.
Qed.

Lemma trimEnd_nil (s : jsstring) :
  trimEnd s = [] <-> forallb isWhiteSpace s = true.
Proof.
  unfold trimEnd. rewrite <- (forallb_rev _ s), <- trimStart_nil.
  split; intros H.
  - apply (f_equal (@rev Z)) in H. rewrite rev_involutive in H. exact H.
  - rewrite H. reflexivity.
Qed.

(** [s.trim() === ''] exactly when [s] is made of white space only. *)
Lemma trim_nil (s : jsstring) :
  trim s = [] <-> forallb isWhiteSpace s = true.
Proof.
  unfold trim. rewrite trimEnd_nil.
  destruct (trimStart_split s) as [lead [H1 H2]].
  rewrite H1 at 2. rewrite forallb_app, H2. reflexivity.
Qed.

(** A string is its leading white space, its trimmed form and its trailing
    white space. *)
Lemma trim_split (s : jsstring) :
  exists lead trail,
    s = lead ++ trim s ++ trail
    /\ forallb isWhiteSpace lead = true
    /\ forallb isWhiteSpace trail = true.
Proof.
  destruct (trimStart_split s) as [lead [H1 H2]].
  destruct (trimEnd_split (trimStart s)) as [trail [H3 H4]].
  exists lead, trail. unfold trim. rewrite <- H3. auto.
Qed.

Lemma includes_rev (s needle : jsstring) :
  includes (rev s) (rev needle) = includes s needle.
Proof.
  apply eq_true_iff_eq. rewrite !includes_app. split; intros [a [b H]].
  - exists (rev b), (rev a). apply (f_equal (@rev Z)) in H.
    rewrite rev_involutive, !rev_app_distr, rev_involutive in H.
    rewrite H, app_assoc. reflexivity.
  - exists (rev b), (rev a). rewrite H, !rev_app_distr, app_assoc. reflexivity.
Qed.

Lemma includes_trimStart (s : jsstring) (n : Z) (needle : jsstring) :
  isWhiteSpace n = false ->
  includes (trimStart s) (n :: needle) = includes s (n :: needle).
Proof.
  intros Hn. induction s as [|c s IH]; [reflexivity|].
  cbn [trimStart]. destruct (isWhiteSpace c) eqn:Hc; [|reflexivity].
  rewrite IH. cbn [includes startsWith].
  destruct (Z.eqb_spec c n) as [->|_]; [congruence | reflexivity].
Qed.

Lemma includes_trimEnd (s needle : jsstring) (n : Z) :
  isWhiteSpace n = false ->
  includes (trimEnd s) (needle ++ [n]) = includes s (needle ++ [n]).
Proof.
  intros Hn. unfold trimEnd.
  rewrite <- (includes_rev s), <- includes_rev, rev_involutive.
  rewrite rev_app_distr. simpl. apply includes_trimStart, Hn.
Qed.

(** Trimming cannot change whether a string contains a needle that neither
    starts nor ends with white space. *)
Lemma includes_trim (s needle : jsstring) (first last : Z) (mid mid' : jsstring) :
  needle = first :: mid -> needle = mid' ++ [last] ->
  isWhiteSpace first = false -> isWhiteSpace last = false ->
  includes (trim s) needle = includes s needle.
Proof.
  intros Hf Hl Hwf Hwl. unfold trim.
  rewrite Hl, includes_trimEnd by exact Hwl.
  rewrite <- Hl, Hf. apply includes_trimStart, Hwf.
Qed.

(** Case mapping. *)

Lemma lowerFrom_app (rt : Runtime) (a b before : jsstring) :
  exists x,
    lowerFrom rt before (a ++ b) = x ++ lowerFrom rt (rev a ++ before) b.
Proof.
  revert before; induction a as [|c a IH]; intros before; simpl.
  - exists []. reflexivity.
  - destruct (IH (c :: before)) as [x Hx]. rewrite Hx, <- app_assoc.
    eexists. rewrite app_assoc. reflexivity.
Qed.

Lemma upperFrom_app (rt : Runtime) (a b before : jsstring) :
  exists x,
    upperFrom rt before (a ++ b) = x ++ upperFrom rt (rev a ++ before) b.
Proof.
  revert before; induction a as [|c a IH]; intros before; simpl.
  - exists []. reflexivity.
  - destruct (IH (c :: before)) as [x Hx]. rewrite Hx, <- app_assoc.
    eexists. rewrite app_assoc. reflexivity.
Qed.

Lemma lowerFrom_ascii (rt : Runtime) (w b before : jsstring) :
  forallb isAscii w = true ->
  lowerFrom rt before (w ++ b)
  = map asciiLower w ++ lowerFrom rt (rev w ++ before) b.
Proof.
  revert before; induction w as [|c w IH]; intros before; simpl; [reflexivity|].
  intros H. apply andb_true_iff in H as [-> H]. rewrite IH by exact H.
  rewrite <- app_assoc. reflexivity.
Qed.

(** A Basic Latin word of the message shows up lower-cased in
    [toLowerCase], whatever surrounds it. *)
Lemma includes_toLowerCase (rt : Runtime) (s w : jsstring) :
  forallb isAscii w = true ->
  (exists a b, s = a ++ w ++ b) ->
  includes (toLowerCase rt s) (map asciiLower w) = true.
Proof.
  intros Hw [a [b ->]]. apply includes_app. unfold toLowerCase.
  destruct (lowerFrom_app rt a (w ++ b) []) as [x ->].
  rewrite lowerFrom_ascii by exact Hw.
  eexists _, _. reflexivity.
Qed.

(** The match is case insensitive: a word that spells "hello" or "hi" in
    any mix of cases triggers the greeting rule. *)
Lemma greets_any_case (rt : Runtime) (s w : jsstring) :
  forallb isAscii w = true ->
  map asciiLower w = js "hello" \/ map asciiLower w = js "hi" ->
  (exists a b, s = a ++ w ++ b) ->
  greets (toLowerCase rt s) = true.
Proof.
  intros Hw Hl Hs. pose proof (includes_toLowerCase rt s w Hw Hs) as H.
  unfold greets. apply orb_true_iff.
  destruct Hl as [Hl | Hl]; rewrite Hl in H; auto.
Qed.

Lemma isWhiteSpace_asciiUpper (c : Z) :
  isWhiteSpace c = true -> asciiUpper c = c.
Proof.
  unfold isWhiteSpace, asciiUpper. intros H.
  destruct ((97 <=? c) && (c <=? 122)) eqn:E; [|reflexivity].
  apply andb_true_iff in E as [E1 E2].
  apply Z.leb_le in E1, E2.
  repeat (apply orb_true_iff in H as [H|H]);
    try (apply Z.eqb_eq in H; lia).
  apply andb_true_iff in H as [H1 H2]. apply Z.leb_le in H1, H2. lia.
Qed.

Lemma upperFrom_blank (rt : Runtime) (w b before : jsstring) :
  forallb isWhiteSpace w = true ->
  upperFrom rt before (w ++ b) = w ++ upperFrom rt (rev w ++ before) b.
Proof.
  revert before; induction w as [|c w IH]; intros before; simpl; [reflexivity|].
  intros H. apply andb_true_iff in H as [Hc H]. rewrite IH by exact H.
  rewrite Hc, <- app_assoc. destruct (isAscii c); [|reflexivity].
  rewrite isWhiteSpace_asciiUpper by exact Hc. reflexivity.
Qed.

(** White space around a string stays where it is in [toUpperCase]. *)
Lemma toUpperCase_margins (rt : Runtime) (lead core trail : jsstring) :
  forallb isWhiteSpace lead = true ->
  forallb isWhiteSpace trail = true ->
  exists mid, toUpperCase rt (lead ++ core ++ trail) = lead ++ mid ++ trail.
Proof.
  intros Hl Ht. unfold toUpperCase.
  rewrite upperFrom_blank by exact Hl.
  destruct (upperFrom_app rt core trail (rev lead ++ [])) as [x ->].
  pose proof (upperFrom_blank rt trail [] (rev core ++ rev lead ++ []) Ht) as E.
  simpl in E. rewrite !app_nil_r in E. rewrite app_nil_r, E.
  exists x. reflexivity.
Qed.

(** ** The handler, branch by branch *)

Lemma typeof_string (v : JSValue) :
  string_eqb (typeof v) (js "string")
  = match v with VString _ => true | _ => false end.
Proof. destruct v; reflexivity. Qed.

Lemma validationFails_string (rt : Runtime) (m : jsstring) :
  validationFails rt (VString m) = Return (string_eqb (trim m) []).
Proof.
  unfold validationFails. rewrite typeof_string. simpl.
  destruct (string_eqb m []) eqn:E; [|reflexivity].
  apply string_eqb_nil in E. subst m. reflexivity.
Qed.

Lemma validationFails_other (rt : Runtime) (v : JSValue) :
  (forall s, v <> VString s) -> validationFails rt v = Return true.
Proof.
  intros H. unfold validationFails. rewrite typeof_string.
  destruct v; simpl; try reflexivity.
  - destruct b; reflexivity.
  - destruct (is_zero x || is_nan x); reflexivity.
  - exfalso. apply (H s). reflexivity.
Qed.

Section Handler.

Variable rt : Runtime.
Variable now : Z.

(** The rejected messages take the 400 branch. *)
Lemma chatTry_rejected (req : Request) (message : JSValue) :
  destructure rt (body req) (js "message") = Return message ->
  rejected message ->
  chatTry rt now req = Return (badRequest now).
Proof.
  intros Hd Hr. unfold chatTry. rewrite Hd. cbn [bind].
  destruct message; try (rewrite validationFails_other by discriminate; reflexivity).
  rewrite validationFails_string. cbn [bind].
  simpl in Hr. rewrite Hr. reflexivity.
Qed.

(** The accepted messages take the 200 branch, with one of two replies. *)
Lemma chatTry_accepted (req : Request) (m : jsstring) :
  destructure rt (body req) (js "message") = Return (VString m) ->
  trim m <> [] ->
  chatTry rt now req
  = Return (ok now (if greets (toLowerCase rt m) then greeting
                    else js "BOT SAYS: " ++ toUpperCase rt m)).
Proof.
  intros Hd Hm. unfold chatTry. rewrite Hd. cbn [bind].
  rewrite validationFails_string. cbn [bind].
  destruct (string_eqb (trim m) []) eqn:E.
  - apply string_eqb_nil in E. contradiction.
  - cbn [callString bind]. fold (greets (toLowerCase rt m)).
    destruct (greets (toLowerCase rt m)); reflexivity.
Qed.

(** The [try] block throws only on the destructuring of a missing body. *)
Lemma chatTry_throw (req : Request) (e : JSError) :
  chatTry rt now req = Throw e <->
  (body req = VUndefined \/ body req = VNull)
  /\ e = TypeError rt CannotDestructure (js "message").
Proof.
  destruct req as [b]. cbn [body].
  destruct (destructure rt b (js "message")) as [message|e'] eqn:Hd.
  - assert (Hn : b <> VUndefined /\ b <> VNull)
      by (destruct b; simpl in Hd; try discriminate; split; discriminate).
    assert (Hr : exists r, chatTry rt now {| body := b |} = Return r).
    { destruct message;
        try (eexists; eapply chatTry_rejected; [exact Hd | exact I]).
      destruct (string_eqb (trim s) []) eqn:E.
      - apply string_eqb_nil in E.
        eexists; eapply chatTry_rejected; [exact Hd | exact E].
      - eexists; eapply chatTry_accepted; [exact Hd |].
        intros H. apply string_eqb_nil in H. congruence. }
    destruct Hr as [r Hr]. rewrite Hr. split; [discriminate|].
    intros [[H|H] _]; tauto.
  - unfold chatTry. cbn [body]. rewrite Hd. cbn [bind].
    destruct b; simpl in Hd; try discriminate;
      injection Hd as <-; (split; [intros [= <-]; auto | intros [_ ->]; reflexivity]).
Qed.

End Handler.

(** ** Dates: what [toISOString] prints, [Date.parse] reads back *)

Module DateFacts.
Import Date.

Lemma DayFromYear_next (y : Z) :
  DayFromYear (y + 1) = DayFromYear y + DaysInYear y.
Proof.
  unfold DayFromYear, DaysInYear.
  destruct (Z.eqb_spec (y mod 4) 0), (Z.eqb_spec (y mod 100) 0),
    (Z.eqb_spec (y mod 400) 0); cbn [negb];
    Z.div_mod_to_equations; lia.
Qed.

(** [YearFromDay] is the year the day falls in. *)
Lemma YearFromDay_bounds (day : Z) :
  DayFromYear (YearFromDay day) <= day < DayFromYear (YearFromDay day + 1).
Proof.
  unfold YearFromDay.
  set (y := 1970 + 400 * day / 146097).
  assert (Hlo : DayFromYear (y - 1) <= day)
    by (subst y; unfold DayFromYear; Z.div_mod_to_equations; lia).
  assert (Hhi : day < DayFromYear (y + 2))
    by (subst y; unfold DayFromYear; Z.div_mod_to_equations; lia).
  destruct (Z.ltb_spec day (DayFromYear y)).
  - replace (y - 1 + 1) with y by lia. lia.
  - destruct (Z.leb_spec (DayFromYear (y + 1)) day).
    + replace (y + 1 + 1) with (y + 2) by lia. lia.
    + lia.
Qed.

Lemma InLeapYear_cases (y : Z) :
  (InLeapYear y = 0 /\ DaysInYear y = 365)
  \/ (InLeapYear y = 1 /\ DaysInYear y = 366).
Proof.
  unfold InLeapYear, DaysInYear.
  destruct (y mod 4 =? 0), (y mod 100 =? 0), (y mod 400 =? 0); cbn; auto.
Qed.

(** The month of a day of the year, and the day of the month. *)
Lemma monthOf_bounds (leap d : Z) :
  leap = 0 \/ leap = 1 ->
  0 <= d < 365 + leap ->
  let m := monthOf leap d in
  0 <= m <= 11
  /\ d - monthStart leap m + 1 <= 31
  /\ 1 <= d - monthStart leap m + 1
       <= monthStart leap (m + 1) - monthStart leap (m + 1 - 1).
Proof.
  intros [-> | ->] Hd; unfold monthOf;
    repeat (match goal with
            | |- context [?a <? ?b] => destruct (Z.ltb_spec a b)
            end; [cbn; lia|]);
    cbn; lia.
Qed.

Lemma digits_snoc (w : nat) (acc : Z) (s : jsstring) :
  digits (S w) acc s
  = match digits w acc s with
    | Some (a, c :: rest) =>
        if (48 <=? c) && (c <=? 57) then Some (10 * a + (c - 48), rest)
        else None
    | _ => None
    end.
Proof.
  revert acc s; induction w as [|w IH]; intros acc s.
  - destruct s as [|c s]; [reflexivity|]. cbn.
    destruct ((48 <=? c) && (c <=? 57)); reflexivity.
  - cbn [digits]. destruct s as [|c s]; [reflexivity|].
    destruct ((48 <=? c) && (c <=? 57)); [|reflexivity].
    rewrite <- IH. reflexivity.
Qed.

(** Reading back a zero-padded number. *)
Lemma digits_padded (w : nat) (acc n : Z) (rest : jsstring) :
  0 <= n < 10 ^ Z.of_nat w ->
  digits w acc (padded w n ++ rest) = Some (acc * 10 ^ Z.of_nat w + n, rest).
Proof.
  revert acc n rest; induction w as [|w IH]; intros acc n rest Hn.
  - cbn in *. f_equal. f_equal. lia.
  - rewrite Nat2Z.inj_succ, Z.pow_succ_r in * by lia.
    rewrite digits_snoc. cbn [padded]. rewrite <- app_assoc.
    rewrite IH by (Z.div_mod_to_equations; lia).
    cbn [app]. unfold digit.
    assert (H10 : 0 <= n mod 10 < 10) by (apply Z.mod_pos_bound; lia).
    replace ((48 <=? 48 + n mod 10) && (48 + n mod 10 <=? 57)) with true
      by (symmetry; apply andb_true_iff; split; apply Z.leb_le; lia).
    f_equal. f_equal. Z.div_mod_to_equations. lia.
Qed.

Ltac pow10 :=
  repeat match goal with
         | |- context [10 ^ Z.of_nat ?w] =>
             let v := eval vm_compute in (10 ^ Z.of_nat w) in
             change (10 ^ Z.of_nat w) with v
         end.

Lemma padded_head (w : nat) (n : Z) :
  0 <= n ->
  match padded (S w) n with
  | c :: _ => 48 <= c <= 57
  | [] => False
  end.
Proof.
  revert n; induction w as [|w IH]; intros n Hn.
  - cbn [padded app]. unfold digit.
    pose proof (Z.mod_pos_bound n 10 ltac:(lia)). lia.
  - change (padded (S (S w)) n)
      with (padded (S w) (n / 10) ++ [digit (n mod 10)]).
    specialize (IH (n / 10) ltac:(Z.div_mod_to_equations; lia)).
    destruct (padded (S w) (n / 10)); [contradiction | exact IH].
Qed.

(** Reading back the year, in four digits or in six with a sign. *)
Lemma parseYear_yearString (y : Z) (rest : jsstring) :
  -999999 <= y <= 999999 ->
  parseYear (yearString y ++ rest) = Some (y, rest).
Proof.
  intros Hy. unfold yearString.
  destruct (Z.leb_spec 0 y) as [H0|H0]; cbn [andb].
  - destruct (Z.leb_spec y 9999) as [H1|H1].
    + pose proof (padded_head 3 y H0) as Hh.
      pose proof (digits_padded 4 0 y rest ltac:(pow10; lia)) as Hd.
      unfold parseYear.
      destruct (padded 4 y) as [|c p]; [contradiction|]. cbn [app] in *.
      destruct (Z.eqb_spec c 43); [lia|]. destruct (Z.eqb_spec c 45); [lia|].
      rewrite Hd. reflexivity.
    + destruct (Z.ltb_spec y 0); [lia|].
      change (js "+") with [43]. cbn [app]. unfold parseYear.
      change (43 =? 43) with true. cbv iota.
      rewrite digits_padded by (pow10; lia). pow10. f_equal. f_equal. lia.
  - destruct (Z.ltb_spec y 0); [|lia].
    change (js "-") with [45]. cbn [app]. unfold parseYear.
    change (45 =? 43) with false. change (45 =? 45) with true. cbv iota.
    rewrite digits_padded by (pow10; lia).
    pow10. destruct (Z.eqb_spec (0 * 1000000 + Z.abs y) 0); [lia|].
    f_equal. f_equal. lia.
Qed.

Lemma digits_padded0 (w : nat) (n : Z) (rest : jsstring) :
  0 <= n < 10 ^ Z.of_nat w ->
  digits w 0 (padded w n ++ rest) = Some (n, rest).
Proof.
  intros H. rewrite digits_padded by exact H. reflexivity.
Qed.

Lemma inRange_true (lo x hi : Z) : lo <= x <= hi -> inRange lo x hi = true.
Proof.
  intros H. unfold inRange. apply andb_true_iff. split; apply Z.leb_le; lia.
Qed.

Lemma YearFromDay_range (t : Z) :
  - maxTime <= t <= maxTime ->
  -999999 <= YearFromDay (Day t) <= 999999.
Proof.
  unfold maxTime, Day, msPerDay, YearFromDay. intros Ht.
  set (day := t / 86400000).
  assert (Hday : -100000000 <= day <= 100000000)
    by (subst day; Z.div_mod_to_equations; lia).
  clearbody day.
  destruct (day <? _); [|destruct (_ <=? day)];
    Z.div_mod_to_equations; lia.
Qed.

Ltac accept c :=
  cbn [bindO app expect]; change (c =? c) with true; cbv iota; cbn [bindO].

(** Every time value a Date can hold is printed by [toISOString] in a
    form that [Date.parse] reads back to the same time value. *)
Theorem parse_toISOString (t : Z) :
  - maxTime <= t <= maxTime -> parse (toISOString t) = Some t.
Proof.
  intros Ht. unfold toISOString, parse.
  pose proof (YearFromDay_range t Ht) as Hy.
  pose proof (YearFromDay_bounds (Day t)) as Hb.
  rewrite DayFromYear_next in Hb.
  set (y := YearFromDay (Day t)) in *.
  set (leap := InLeapYear y).
  assert (Hleap : (leap = 0 \/ leap = 1) /\ DaysInYear y = 365 + leap)
    by (subst leap; destruct (InLeapYear_cases y) as [[-> ->] | [-> ->]]; auto).
  destruct Hleap as [Hleap Hdays].
  set (d := Day t - DayFromYear y) in *.
  assert (Hd : 0 <= d < 365 + leap) by (subst d; lia).
  pose proof (monthOf_bounds leap d Hleap Hd) as [Hm [H31 Hdom]].
  set (m := monthOf leap d) in *.
  set (ms := TimeWithinDay t).
  assert (Hms : 0 <= ms < 86400000)
    by (subst ms; unfold TimeWithinDay, msPerDay; apply Z.mod_pos_bound; lia).
  assert (Ht' : t = Day t * 86400000 + ms).
  { subst ms. unfold Day, TimeWithinDay, msPerDay.
    rewrite Z.mul_comm. apply Z.div_mod. lia. }
  change (js "-") with [45]. change (js "T") with [84].
  change (js ":") with [58]. change (js ".") with [46].
  change (js "Z") with [90].
  rewrite parseYear_yearString by exact Hy. accept 45.
  rewrite digits_padded0 by (pow10; lia). accept 45.
  rewrite digits_padded0 by (pow10; lia). accept 84.
  rewrite digits_padded0 by (pow10; Z.div_mod_to_equations; lia). accept 58.
  rewrite digits_padded0 by (pow10; Z.div_mod_to_equations; lia). accept 58.
  rewrite digits_padded0 by (pow10; Z.div_mod_to_equations; lia). accept 46.
  rewrite digits_padded0 by (pow10; Z.div_mod_to_equations; lia). accept 90.
  fold leap. cbn [string_eqb andb].
  rewrite (inRange_true 1 (m + 1) 12) by lia.
  rewrite (inRange_true 1 (d - monthStart leap m + 1)) by exact Hdom.
  rewrite !inRange_true by (Z.div_mod_to_equations; lia).
  cbn [andb]. replace (m + 1 - 1) with m by lia.
  match goal with
  | |- (if inRange _ ?v _ then _ else _) = _ => replace v with t
  end.
  - rewrite inRange_true by exact Ht. reflexivity.
  - rewrite Ht' at 1. subst d. unfold msPerDay.
    Z.div_mod_to_equations. lia.
Qed.

End DateFacts.

(** ** The shape of every response *)

Section Shape.

Variable rt : Runtime.

Lemma destructure_ok (b : JSValue) (key : jsstring) :
  b <> VUndefined -> b <> VNull ->
  destructure rt b key = Return (getProp b key).
Proof. intros H1 H2. destruct b; try reflexivity; contradiction. Qed.

Lemma getProp_body (b : JSValue) (key : jsstring) (m : jsstring) :
  getProp b key = VString m -> b <> VUndefined /\ b <> VNull.
Proof. destruct b; simpl; intros H; try discriminate; split; discriminate. Qed.

Lemma chat_rejected (now : Z) (req : Request) :
  body req <> VUndefined -> body req <> VNull ->
  rejected (getProp (body req) (js "message")) ->
  chat rt now req = badRequest now.
Proof.
  intros H1 H2 Hr. unfold chat.
  rewrite (chatTry_rejected rt now req _ (destructure_ok _ _ H1 H2) Hr).
  reflexivity.
Qed.

Lemma chat_accepted (now : Z) (req : Request) (m : jsstring) :
  getProp (body req) (js "message") = VString m ->
  trim m <> [] ->
  chat rt now req
  = ok now (if greets (toLowerCase rt m) then greeting
            else js "BOT SAYS: " ++ toUpperCase rt m).
Proof.
  intros Hm Ht. destruct (getProp_body _ _ _ Hm) as [H1 H2].
  unfold chat. rewrite (chatTry_accepted rt now req m); [reflexivity | | exact Ht].
  rewrite destructure_ok by assumption. rewrite Hm. reflexivity.
Qed.

Lemma chat_faulted (now : Z) (req : Request) :
  body req = VUndefined \/ body req = VNull ->
  chat rt now req
  = internalError now (typeErrorText rt CannotDestructure (js "message")).
Proof.
  intros H. unfold chat.
  rewrite (proj2 (chatTry_throw rt now req _) (conj H eq_refl)). reflexivity.
Qed.

(** A request is rejected, answered or faulted, and which of the three
    does not depend on the clock. *)
Lemma chat_cases (req : Request) :
  (forall now, chat rt now req = badRequest now)
  \/ (exists reply, forall now, chat rt now req = ok now reply)
  \/ (exists details, forall now, chat rt now req = internalError now details).
Proof.
  destruct (body req) eqn:Hb;
    try (right; right; eexists; intros now; apply chat_faulted;
         rewrite Hb; auto; fail);
    try (left; intros now; apply chat_rejected; rewrite Hb;
         try discriminate; exact I; fail).
  destruct (getProp (VObject props) (js "message")) eqn:Hm;
    try (left; intros now; apply chat_rejected; rewrite Hb;
         try discriminate; rewrite Hm; exact I; fail).
  destruct (string_eqb (trim s) []) eqn:E.
  - left. intros now. apply chat_rejected; rewrite Hb; try discriminate.
    rewrite Hm. apply string_eqb_nil, E.
  - right; left. eexists. intros now. apply chat_accepted.
    + rewrite Hb. exact Hm.
    + intros H. apply string_eqb_nil in H. congruence.
Qed.

End Shape.

(** ** The scenarios of the specification, run on the handler *)

Example scenario_hello_there :
  chat asciiRuntime 0 (post (VString (js "Hello there")))
  = ok 0 (js "Greetings, human! How can I assist you?").
Proof. reflexivity. Qed.

Example scenario_test :
  chat asciiRuntime 0 (post (VString (js "test"))) = ok 0 (js "BOT SAYS: TEST").
Proof. reflexivity. Qed.

Example scenario_empty_message :
  chat asciiRuntime 0 (post (VString (js ""))) = badRequest 0.
Proof. reflexivity. Qed.

Example scenario_no_message :
  chat asciiRuntime 0 {| body := VObject [] |} = badRequest 0.
Proof. reflexivity. Qed.

Example scenario_shouted_hi :
  chat asciiRuntime 0 (post (VString (js "HI!")))
  = ok 0 (js "Greetings, human! How can I assist you?").
Proof. reflexivity. Qed.

Example scenario_chip :
  chat asciiRuntime 0 (post (VString (js "Chip")))
  = ok 0 (js "Greetings, human! How can I assist you?").
Proof. reflexivity. Qed.

Example scenario_number_message :
  chat asciiRuntime 0 (post (VNumber 42%float)) = badRequest 0.
Proof. reflexivity. Qed.

Example scenario_blank_message :
  chat asciiRuntime 0 (post (VString [32; 9; 160; 10])) = badRequest 0.
Proof. reflexivity. Qed.

Example scenario_no_body :
  chat asciiRuntime 0 {| body := VUndefined |}
  = internalError 0
      (js "Cannot destructure property 'message' of 'req.body' as it is undefined.").
Proof. reflexivity. Qed.

Example signature_at_epoch :
  signature (js "Processed") 0
  = js "Processed by EchoBot 9000 @ 1970-01-01T00:00:00.000Z".
Proof. reflexivity. Qed.

Example toISOString_leap_day :
  Date.toISOString 951782400000 = js "2000-02-29T00:00:00.000Z".
Proof. reflexivity. Qed.

Example toISOString_before_epoch :
  Date.toISOString (-1) = js "1969-12-31T23:59:59.999Z".
Proof. reflexivity. Qed.

Example toISOString_last_instant :
  Date.toISOString Date.maxTime = js "+275760-09-13T00:00:00.000Z".
Proof. reflexivity. Qed.

(** * The contract of the chat endpoint *)

(** C1.  A request whose [message] is absent, is not a string, or is empty
    once trimmed is answered with HTTP 400, the exact text "Message is
    required and must be a non-empty string.", a signature tagged "Error
    processed", and no [response] field.  The request is any body that
    [express.json()] leaves for a JSON document. *)
Theorem validation_failure_is_400 (rt : Runtime) (now : Z) (req : Request) :
  body req <> VUndefined -> body req <> VNull ->
  rejected (getProp (body req) (js "message")) ->
  let r := chat rt now req in
  status r = 400
  /\ json r = VObject
       [ (js "error",
          VString (js "Message is required and must be a non-empty string."));
         (js "backendSignature",
          VString (js "Error processed by EchoBot 9000 @ "
                   ++ Date.toISOString now)) ]
  /\ getProp (json r) (js "response") = VUndefined.
Proof.
  intros H1 H2 Hr r. subst r. rewrite (chat_rejected rt now req H1 H2 Hr).
  repeat split.
Qed.

Lemma validation_failure_is_400_witness :
  status (chat asciiRuntime 0 {| body := VObject [] |}) = 400.
Proof.
  refine (proj1 (validation_failure_is_400 asciiRuntime 0
                   {| body := VObject [] |} _ _ _)).
  - discriminate.
  - discriminate.
  - exact I.
Defined.

(** C2.  A valid message whose lower-cased form contains "hello" or "hi"
    is answered with HTTP 200 and the fixed greeting.  The test is made on
    the lower-cased message, and making it on the trimmed lower-cased
    message gives the same answer. *)
Theorem greeting_for_hello_or_hi
  (rt : Runtime) (now : Z) (req : Request) (m : jsstring) :
  getProp (body req) (js "message") = VString m ->
  trim m <> [] ->
  includes (toLowerCase rt m) (js "hello") = true
  \/ includes (toLowerCase rt m) (js "hi") = true ->
  let r := chat rt now req in
  status r = 200
  /\ getProp (json r) (js "response")
     = VString (js "Greetings, human! How can I assist you?")
  /\ greets (trim (toLowerCase rt m)) = greets (toLowerCase rt m).
Proof.
  intros Hm Ht Hg r. subst r. rewrite (chat_accepted rt now req m Hm Ht).
  assert (G : greets (toLowerCase rt m) = true)
    by (unfold greets; apply orb_true_iff; exact Hg).
  split; [|split].
  - reflexivity.
  - rewrite G. reflexivity.
  - unfold greets. f_equal.
    + apply (includes_trim _ _ 104 111 (js "ello") (js "hell")); reflexivity.
    + apply (includes_trim _ _ 104 105 (js "i") (js "h")); reflexivity.
Qed.

Lemma greeting_for_hello_or_hi_witness :
  getProp (json (chat asciiRuntime 0
                   (post (VString (js "HI!")))))
    (js "response")
  = VString (js "Greetings, human! How can I assist you?").
Proof.
  refine (proj1 (proj2 (greeting_for_hello_or_hi asciiRuntime 0
                          (post (VString (js "HI!")))
                          (js "HI!") _ _ _))).
  - reflexivity.
  - vm_compute. discriminate.
  - right. vm_compute. reflexivity.
Defined.

(** C3.  A valid message whose lower-cased form contains neither "hello"
    nor "hi" is answered with HTTP 200 and "BOT SAYS: " followed by the
    original message in upper case. *)
Theorem echo_in_upper_case
  (rt : Runtime) (now : Z) (req : Request) (m : jsstring) :
  getProp (body req) (js "message") = VString m ->
  trim m <> [] ->
  includes (toLowerCase rt m) (js "hello") = false ->
  includes (toLowerCase rt m) (js "hi") = false ->
  let r := chat rt now req in
  status r = 200
  /\ getProp (json r) (js "response")
     = VString (js "BOT SAYS: " ++ toUpperCase rt m).
Proof.
  intros Hm Ht H1 H2 r. subst r. rewrite (chat_accepted rt now req m Hm Ht).
  unfold greets. rewrite H1, H2. split; reflexivity.
Qed.

Lemma echo_in_upper_case_witness :
  getProp (json (chat asciiRuntime 0
                   (post (VString (js "test")))))
    (js "response")
  = VString (js "BOT SAYS: TEST").
Proof.
  refine (proj2 (echo_in_upper_case asciiRuntime 0
                   (post (VString (js "test")))
                   (js "test") _ _ _ _)).
  - reflexivity.
  - vm_compute. discriminate.
  - vm_compute. reflexivity.
  - vm_compute. reflexivity.
Defined.

(** A message that contains a needle starting with a character that is
    not white space is not blank. *)
Lemma includes_not_blank (m : jsstring) (n : Z) (needle : jsstring) :
  isWhiteSpace n = false ->
  includes m (n :: needle) = true ->
  trim m <> [].
Proof.
  intros Hn Hi Ht. apply trim_nil in Ht.
  apply includes_app in Hi as [a [b ->]].
  rewrite forallb_app in Ht. apply andb_true_iff in Ht as [_ Ht].
  simpl in Ht. rewrite Hn in Ht. discriminate.
Qed.

(** C4.  Matching is substring containment and the greeting rule comes
    first: a message that contains "hi" anywhere, as "this" does, is
    answered with the greeting and not with the "BOT SAYS: " echo. *)
Theorem hi_inside_a_word_greets
  (rt : Runtime) (now : Z) (req : Request) (m : jsstring) :
  getProp (body req) (js "message") = VString m ->
  includes m (js "hi") = true ->
  let r := chat rt now req in
  status r = 200
  /\ getProp (json r) (js "response") = VString greeting
  /\ getProp (json r) (js "response")
     <> VString (js "BOT SAYS: " ++ toUpperCase rt m).
Proof.
  intros Hm Hi r. subst r.
  assert (Ht : trim m <> [])
    by (apply (includes_not_blank m 104 (js "i")); [reflexivity | exact Hi]).
  assert (Hl : includes (toLowerCase rt m) (js "hi") = true)
    by (apply (includes_toLowerCase rt m (js "hi"));
        [reflexivity | apply includes_app, Hi]).
  rewrite (chat_accepted rt now req m Hm Ht).
  unfold greets. rewrite Hl, orb_true_r.
  split; [reflexivity | split; [reflexivity | discriminate]].
Qed.

Lemma hi_inside_a_word_greets_witness :
  getProp (json (chat asciiRuntime 0
                   (post (VString (js "this")))))
    (js "response")
  = VString (js "Greetings, human! How can I assist you?").
Proof.
  refine (proj1 (proj2 (hi_inside_a_word_greets asciiRuntime 0
                          (post (VString (js "this")))
                          (js "this") _ _))).
  - reflexivity.
  - vm_compute. reflexivity.
Defined.

(** C5.  Every response, whatever its status, carries a non-empty
    [backendSignature] of the form "<tag> by EchoBot 9000 @ <timestamp>":
    the tag is "Processed" on 200 and "Error processed" on 400 and 500,
    and the timestamp is the ISO-8601 form of the clock reading, which
    [Date.parse] reads back. *)
Theorem every_response_is_signed (rt : Runtime) (now : Z) (req : Request) :
  - Date.maxTime <= now <= Date.maxTime ->
  let r := chat rt now req in
  exists tag,
    getProp (json r) (js "backendSignature")
    = VString (tag ++ js " by EchoBot 9000 @ " ++ Date.toISOString now)
    /\ tag ++ js " by EchoBot 9000 @ " ++ Date.toISOString now <> []
    /\ Date.parse (Date.toISOString now) = Some now
    /\ ((status r = 200 /\ tag = js "Processed")
        \/ ((status r = 400 \/ status r = 500) /\ tag = js "Error processed")).
Proof.
  intros Hnow r. subst r.
  assert (Hne : forall tag,
             tag ++ js " by EchoBot 9000 @ " ++ Date.toISOString now <> []).
  { intros tag H. apply app_eq_nil in H as [_ H]. discriminate. }
  pose proof (DateFacts.parse_toISOString now Hnow) as Hp.
  destruct (chat_cases rt req) as [H | [[reply H] | [details H]]];
    rewrite H.
  - exists (js "Error processed"). repeat split; auto.
  - exists (js "Processed"). repeat split; auto.
  - exists (js "Error processed"). repeat split; auto.
Qed.

Lemma every_response_is_signed_witness :
  exists tag,
    getProp (json (chat asciiRuntime 1750649014000
                     (post (VString (js "test")))))
      (js "backendSignature")
    = VString (tag ++ js " by EchoBot 9000 @ " ++ js "2025-06-23T03:23:34.000Z").
Proof.
  destruct (every_response_is_signed asciiRuntime 1750649014000
              (post (VString (js "test"))))
    as [tag [H _]].
  - vm_compute. split; discriminate.
  - exists tag. exact H.
Defined.

(** The handler completes with the response it sends, whatever the
    request: nothing thrown in the [try] block gets past the [catch]. *)
Lemma chatHandler_returns (rt : Runtime) (now : Z) (req : Request) :
  chatHandler rt now req = Return (chat rt now req).
Proof.
  unfold chatHandler, chat, tryCatch.
  destruct (chatTry rt now req); reflexivity.
Qed.

(** C6.  A fault raised in the [try] block is caught: the handler
    completes, answering HTTP 500 with the generic message, [details] set
    to the fault's message and a signature tagged "Error processed". *)
Theorem fault_is_reported_as_500
  (rt : Runtime) (now : Z) (req : Request) (e : JSError) :
  chatTry rt now req = Throw e ->
  let r := chat rt now req in
  chatHandler rt now req = Return r
  /\ status r = 500
  /\ json r = VObject
       [ (js "error",
          VString (js "An unexpected error occurred while processing your request."));
         (js "details", VString (errMessage e));
         (js "backendSignature",
          VString (js "Error processed by EchoBot 9000 @ "
                   ++ Date.toISOString now)) ].
Proof.
  intros H r. subst r. split; [apply chatHandler_returns|].
  unfold chat. rewrite H. split; reflexivity.
Qed.

Lemma fault_is_reported_as_500_witness :
  status (chat asciiRuntime 0 {| body := VUndefined |}) = 500.
Proof.
  refine (proj1 (proj2 (fault_is_reported_as_500 asciiRuntime 0
                          {| body := VUndefined |}
                          (TypeError asciiRuntime CannotDestructure (js "message"))
                          _))).
  reflexivity.
Defined.

(** C7.  Two runs on the same request body, at clock readings [now1] and
    [now2], give the same status, the same fields and the same [response],
    [error] and [details]; the two signatures are built from the same tag
    and differ in their timestamps only. *)
Theorem same_request_same_answer (rt : Runtime) (now1 now2 : Z) (req : Request) :
  let r1 := chat rt now1 req in
  let r2 := chat rt now2 req in
  status r1 = status r2
  /\ fieldNames (json r1) = fieldNames (json r2)
  /\ getProp (json r1) (js "response") = getProp (json r2) (js "response")
  /\ getProp (json r1) (js "error") = getProp (json r2) (js "error")
  /\ getProp (json r1) (js "details") = getProp (json r2) (js "details")
  /\ exists tag,
       getProp (json r1) (js "backendSignature")
       = VString (tag ++ js " by EchoBot 9000 @ " ++ Date.toISOString now1)
       /\ getProp (json r2) (js "backendSignature")
          = VString (tag ++ js " by EchoBot 9000 @ " ++ Date.toISOString now2).
Proof.
  intros r1 r2. subst r1 r2.
  destruct (chat_cases rt req) as [H | [[reply H] | [details H]]];
    rewrite !H; repeat split; eexists; split; reflexivity.
Qed.

(** C8.  For a request whose [message] is a string that is not empty once
    trimmed, the [try] block returns: no method call in it throws, the
    [catch] is not entered, and the answer is HTTP 200. *)
Theorem valid_message_never_throws
  (rt : Runtime) (now : Z) (req : Request) (m : jsstring) :
  getProp (body req) (js "message") = VString m ->
  trim m <> [] ->
  (exists r, chatTry rt now req = Return r /\ status r = 200)
  /\ (forall e, chatTry rt now req <> Throw e)
  /\ status (chat rt now req) = 200.
Proof.
  intros Hm Ht. destruct (getProp_body _ _ _ Hm) as [H1 H2].
  assert (Hd : destructure rt (body req) (js "message") = Return (VString m))
    by (rewrite destructure_ok by assumption; rewrite Hm; reflexivity).
  pose proof (chatTry_accepted rt now req m Hd Ht) as H.
  split; [|split].
  - eexists. split; [exact H | reflexivity].
  - intros e He. rewrite H in He. discriminate.
  - unfold chat. rewrite H. reflexivity.
Qed.

Lemma valid_message_never_throws_witness :
  status (chat asciiRuntime 0
            (post (VString (js "Hello there"))))
  = 200.
Proof.
  refine (proj2 (proj2 (valid_message_never_throws asciiRuntime 0
                          (post (VString (js "Hello there")))
                          (js "Hello there") _ _))).
  - reflexivity.
  - vm_compute. discriminate.
Defined.

(** C9.  The echo is built from the message as received, not from its
    trimmed form: the white space around the message is found again, in
    place, around the upper-cased text of the reply. *)
Theorem echo_keeps_surrounding_space
  (rt : Runtime) (now : Z) (req : Request) (m : jsstring) :
  getProp (body req) (js "message") = VString m ->
  trim m <> [] ->
  includes (toLowerCase rt m) (js "hello") = false ->
  includes (toLowerCase rt m) (js "hi") = false ->
  exists lead mid trail,
    m = lead ++ trim m ++ trail
    /\ forallb isWhiteSpace lead = true
    /\ forallb isWhiteSpace trail = true
    /\ toUpperCase rt m = lead ++ mid ++ trail
    /\ getProp (json (chat rt now req)) (js "response")
       = VString (js "BOT SAYS: " ++ lead ++ mid ++ trail).
Proof.
  intros Hm Ht H1 H2.
  destruct (trim_split m) as [lead [trail [Hs [Hl Htr]]]].
  destruct (toUpperCase_margins rt lead (trim m) trail Hl Htr) as [mid Hu].
  rewrite <- Hs in Hu.
  exists lead, mid, trail. repeat split; try assumption.
  rewrite (chat_accepted rt now req m Hm Ht).
  unfold greets. rewrite H1, H2, Hu. reflexivity.
Qed.

Lemma echo_keeps_surrounding_space_witness :
  getProp (json (chat asciiRuntime 0
                   (post (VString (js " test ")))))
    (js "response")
  = VString (js "BOT SAYS:  TEST ").
Proof.
  destruct (echo_keeps_surrounding_space asciiRuntime 0
              (post (VString (js " test ")))
              (js " test ")) as [lead [mid [trail [_ [_ [_ [Hu H]]]]]]].
  - reflexivity.
  - vm_compute. discriminate.
  - vm_compute. reflexivity.
  - vm_compute. reflexivity.
  - rewrite H, <- Hu. reflexivity.
Defined.

(** C10.  The body of a validation failure has exactly the fields [error]
    and [backendSignature], neither [details] nor [response]; a response
    that has a [details] field is an HTTP 500. *)
Theorem details_only_on_500 (rt : Runtime) (now : Z) (req : Request) :
  (body req <> VUndefined -> body req <> VNull ->
   rejected (getProp (body req) (js "message")) ->
   status (chat rt now req) = 400
   /\ fieldNames (json (chat rt now req)) = [js "error"; js "backendSignature"]
   /\ getProp (json (chat rt now req)) (js "details") = VUndefined
   /\ getProp (json (chat rt now req)) (js "response") = VUndefined)
  /\ (In (js "details") (fieldNames (json (chat rt now req))) ->
      status (chat rt now req) = 500).
Proof.
  split.
  - intros H1 H2 Hr. rewrite (chat_rejected rt now req H1 H2 Hr).
    repeat split.
  - destruct (chat_cases rt req) as [H | [[reply H] | [details H]]];
      rewrite H; cbn [fieldNames json badRequest ok internalError map fst In];
      intros Hin; [exfalso | exfalso | reflexivity];
      repeat (destruct Hin as [Hin | Hin]; [vm_compute in Hin; discriminate|]);
      exact Hin.
Qed.

Lemma details_only_on_500_witness :
  fieldNames (json (chat asciiRuntime 0 {| body := VObject [] |}))
  = [js "error"; js "backendSignature"].
Proof.
  refine (proj1 (proj2 (proj1 (details_only_on_500 asciiRuntime 0
                                 {| body := VObject [] |}) _ _ _))).
  - discriminate.
  - discriminate.
  - exact I.
Defined.

(** * Further properties of the handler *)

(** The three ways a request can go, with the request that goes each way. *)
Lemma chat_trichotomy (rt : Runtime) (now : Z) (req : Request) :
  ((body req = VUndefined \/ body req = VNull)
   /\ status (chat rt now req) = 500)
  \/ (body req <> VUndefined /\ body req <> VNull
      /\ rejected (getProp (body req) (js "message"))
      /\ status (chat rt now req) = 400)
  \/ (exists m, getProp (body req) (js "message") = VString m
                /\ trim m <> []
                /\ status (chat rt now req) = 200).
Proof.
  assert (Hcase : (body req = VUndefined \/ body req = VNull)
                  \/ (body req <> VUndefined /\ body req <> VNull)).
  { destruct (body req); auto; right; split; discriminate. }
  destruct Hcase as [Hb | [H1 H2]].
  - left. split; [exact Hb|]. rewrite (chat_faulted rt now req Hb). reflexivity.
  - right.
    assert (Hm : rejected (getProp (body req) (js "message"))
                 \/ exists m, getProp (body req) (js "message") = VString m
                              /\ trim m <> []).
    { destruct (getProp (body req) (js "message")) as [| | | |m| |];
        try (left; exact I).
      destruct (string_eqb (trim m) []) eqn:E.
      - left. apply string_eqb_nil, E.
      - right. exists m. split; [reflexivity|].
        intros H. apply string_eqb_nil in H. congruence. }
    destruct Hm as [Hr | [m [Hm Ht]]].
    + left. repeat split; try assumption.
      rewrite (chat_rejected rt now req H1 H2 Hr). reflexivity.
    + right. exists m. repeat split; try assumption.
      rewrite (chat_accepted rt now req m Hm Ht). reflexivity.
Qed.

(** The status tells what the request was: 500 for a request without a
    body, 400 for a body whose [message] is rejected, 200 for a message
    that is a string with something else than white space in it. *)
Theorem status_tells_the_request (rt : Runtime) (now : Z) (req : Request) :
  (status (chat rt now req) = 500
   <-> body req = VUndefined \/ body req = VNull)
  /\ (status (chat rt now req) = 400
      <-> body req <> VUndefined /\ body req <> VNull
          /\ rejected (getProp (body req) (js "message")))
  /\ (status (chat rt now req) = 200
      <-> exists m, getProp (body req) (js "message") = VString m
                    /\ trim m <> []).
Proof.
  destruct (chat_trichotomy rt now req)
    as [[Hb Hs] | [[H1 [H2 [Hr Hs]]] | [m [Hm [Ht Hs]]]]]; rewrite Hs.
  - repeat split; try discriminate; auto.
    + intros [H [H' _]]. destruct Hb; contradiction.
    + intros [m [Hm _]]. destruct Hb as [Hb | Hb]; rewrite Hb in Hm;
        discriminate.
  - repeat split; try discriminate; auto.
    + intros [H | H]; contradiction.
    + intros [m [Hm Ht]]. rewrite Hm in Hr. contradiction.
  - destruct (getProp_body _ _ _ Hm) as [H1 H2].
    repeat split; try discriminate.
    + intros [H | H]; contradiction.
    + intros [_ [_ Hr]]. rewrite Hm in Hr. contradiction.
    + exists m. auto.
Qed.

(** A body has [response] on 200 only and [error] on 400 and 500 only,
    [backendSignature] comes last, and every field is a string. *)
Theorem fields_by_status (rt : Runtime) (now : Z) (req : Request) :
  let r := chat rt now req in
  ((status r = 200
    /\ fieldNames (json r) = [js "response"; js "backendSignature"])
   \/ (status r = 400
       /\ fieldNames (json r) = [js "error"; js "backendSignature"])
   \/ (status r = 500
       /\ fieldNames (json r)
          = [js "error"; js "details"; js "backendSignature"]))
  /\ exists props,
       json r = VObject props
       /\ forall k v, In (k, v) props -> exists s, v = VString s.
Proof.
  intros r. subst r.
  destruct (chat_cases rt req) as [H | [[reply H] | [details H]]];
    rewrite H; (split; [auto 6 |]); eexists; (split; [reflexivity|]);
    intros k v Hin; simpl in Hin;
    repeat (destruct Hin as [[= <- <-] | Hin]; [eexists; reflexivity|]);
    contradiction.
Qed.

Lemma asciiLower_not_blank (c : Z) :
  isWhiteSpace (asciiLower c) = isWhiteSpace c.
Proof.
  unfold asciiLower.
  destruct ((65 <=? c) && (c <=? 90)) eqn:E; [|reflexivity].
  apply andb_true_iff in E as [E1 E2]. apply Z.leb_le in E1, E2.
  unfold isWhiteSpace.
  repeat match goal with
         | |- context [?a =? ?b] => destruct (Z.eqb_spec a b); [lia|]
         end.
  repeat match goal with
         | |- context [?a <=? ?b] => destruct (Z.leb_spec a b); try lia
         end; reflexivity.
Qed.

(** The greeting does not depend on letter case: a message in which
    "hello" or "hi" is spelled in any mix of upper and lower case is
    answered with HTTP 200 and the greeting. *)
Theorem greeting_in_any_case
  (rt : Runtime) (now : Z) (req : Request) (m w : jsstring) :
  getProp (body req) (js "message") = VString m ->
  forallb isAscii w = true ->
  map asciiLower w = js "hello" \/ map asciiLower w = js "hi" ->
  (exists a b, m = a ++ w ++ b) ->
  status (chat rt now req) = 200
  /\ getProp (json (chat rt now req)) (js "response") = VString greeting.
Proof.
  intros Hm Hw Hl Hs.
  assert (Ht : trim m <> []).
  { destruct w as [|c w]; [destruct Hl; discriminate|].
    apply (includes_not_blank m c w); [|apply includes_app, Hs].
    rewrite <- asciiLower_not_blank.
    destruct Hl as [Hl | Hl]; injection Hl as -> _; reflexivity. }
  rewrite (chat_accepted rt now req m Hm Ht).
  rewrite (greets_any_case rt m w Hw Hl Hs). split; reflexivity.
Qed.

Lemma greeting_in_any_case_witness :
  getProp (json (chat asciiRuntime 0 (post (VString (js "oH, HeLLo!")))))
    (js "response")
  = VString greeting.
Proof.
  refine (proj2 (greeting_in_any_case asciiRuntime 0
                   (post (VString (js "oH, HeLLo!"))) (js "oH, HeLLo!")
                   (js "HeLLo") _ _ _ _)).
  - reflexivity.
  - reflexivity.
  - left. reflexivity.
  - exists (js "oH, "), (js "!"). reflexivity.
Defined.

(** The two replies cannot be mistaken for each other: a valid message is
    answered with the greeting exactly when its lower-cased form contains
    "hello" or "hi", and with a reply that starts with "BOT SAYS: "
    exactly when it contains neither. *)
Theorem reply_tells_the_rule
  (rt : Runtime) (now : Z) (req : Request) (m : jsstring) :
  getProp (body req) (js "message") = VString m ->
  trim m <> [] ->
  exists reply,
    getProp (json (chat rt now req)) (js "response") = VString reply
    /\ (reply = greeting
        <-> includes (toLowerCase rt m) (js "hello") = true
            \/ includes (toLowerCase rt m) (js "hi") = true)
    /\ (startsWith reply (js "BOT SAYS: ") = true
        <-> includes (toLowerCase rt m) (js "hello") = false
            /\ includes (toLowerCase rt m) (js "hi") = false).
Proof.
  intros Hm Ht. rewrite (chat_accepted rt now req m Hm Ht).
  eexists. split; [reflexivity|]. unfold greets.
  destruct (includes (toLowerCase rt m) (js "hello")),
    (includes (toLowerCase rt m) (js "hi")); cbn [orb];
    (split; split; try discriminate; auto;
     try (intros [H | H]; discriminate H);
     try (intros [H H']; discriminate);
     try (intros _; reflexivity)).
Qed.

Lemma reply_tells_the_rule_witness :
  exists reply,
    getProp (json (chat asciiRuntime 0 (post (VString (js "chip")))))
      (js "response") = VString reply
    /\ startsWith reply (js "BOT SAYS: ") = false.
Proof.
  destruct (reply_tells_the_rule asciiRuntime 0 (post (VString (js "chip")))
              (js "chip")) as [reply [H [Hg _]]].
  - reflexivity.
  - vm_compute. discriminate.
  - exists reply. split; [exact H|].
    rewrite (proj2 Hg (or_intror eq_refl)). reflexivity.
Defined.

Lemma toLowerCase_ascii (rt : Runtime) (m : jsstring) :
  forallb isAscii m = true -> toLowerCase rt m = map asciiLower m.
Proof.
  intros H. unfold toLowerCase.
  rewrite <- (app_nil_r m) at 1. rewrite lowerFrom_ascii by exact H.
  apply app_nil_r.
Qed.

Lemma upperFrom_ascii (rt : Runtime) (w before : jsstring) :
  forallb isAscii w = true -> upperFrom rt before w = map asciiUpper w.
Proof.
  revert before; induction w as [|c w IH]; intros before; simpl; [reflexivity|].
  intros H. apply andb_true_iff in H as [-> H]. rewrite IH by exact H.
  reflexivity.
Qed.

Lemma asciiUpper_asciiLower (c : Z) : asciiUpper (asciiLower c) = asciiUpper c.
Proof.
  unfold asciiUpper, asciiLower.
  destruct (Z.leb_spec 65 c), (Z.leb_spec c 90); cbn [andb]; try reflexivity.
  destruct (Z.leb_spec 97 (c + 32)), (Z.leb_spec (c + 32) 122); try lia.
  destruct (Z.leb_spec 97 c), (Z.leb_spec c 122); cbn [andb]; lia.
Qed.

Lemma blank_asciiLower (m : jsstring) :
  forallb isWhiteSpace (map asciiLower m) = forallb isWhiteSpace m.
Proof.
  induction m as [|c m IH]; cbn [map forallb]; [reflexivity|].
  rewrite asciiLower_not_blank, IH. reflexivity.
Qed.

(** The whole answer to a Basic Latin message is blind to letter case:
    two such messages that differ in the case of their letters only get
    the same response. *)
Theorem answer_ignores_ascii_case (rt : Runtime) (now : Z) (m1 m2 : jsstring) :
  forallb isAscii m1 = true ->
  forallb isAscii m2 = true ->
  map asciiLower m1 = map asciiLower m2 ->
  chat rt now (post (VString m1)) = chat rt now (post (VString m2)).
Proof.
  intros H1 H2 Hl.
  assert (Hb : forallb isWhiteSpace m1 = forallb isWhiteSpace m2)
    by (rewrite <- (blank_asciiLower m1), <- (blank_asciiLower m2), Hl;
        reflexivity).
  assert (Hbody : forall m, body (post (VString m)) <> VUndefined
                            /\ body (post (VString m)) <> VNull)
    by (intros m; split; discriminate).
  assert (Hget : forall m,
             getProp (body (post (VString m))) (js "message") = VString m)
    by reflexivity.
  destruct (forallb isWhiteSpace m1) eqn:E.
  - rewrite (chat_rejected rt now (post (VString m1)));
      [| apply Hbody | apply Hbody | rewrite Hget; apply trim_nil, E].
    rewrite (chat_rejected rt now (post (VString m2)));
      [| apply Hbody | apply Hbody | rewrite Hget; apply trim_nil; congruence].
    reflexivity.
  - assert (Ht1 : trim m1 <> []) by (rewrite trim_nil; congruence).
    assert (Ht2 : trim m2 <> []) by (rewrite trim_nil; congruence).
    rewrite (chat_accepted rt now (post (VString m1)) m1 (Hget m1) Ht1).
    rewrite (chat_accepted rt now (post (VString m2)) m2 (Hget m2) Ht2).
    rewrite !toLowerCase_ascii by assumption. rewrite Hl.
    unfold toUpperCase. rewrite !upperFrom_ascii by assumption.
    assert (Hu : map asciiUpper m1 = map asciiUpper m2).
    { rewrite <- (map_ext _ _ asciiUpper_asciiLower m1).
      rewrite <- (map_ext _ _ asciiUpper_asciiLower m2).
      rewrite <- (map_map asciiLower asciiUpper m1).
      rewrite <- (map_map asciiLower asciiUpper m2).
      rewrite Hl. reflexivity. }
    rewrite Hu. reflexivity.
Qed.

Lemma answer_ignores_ascii_case_witness :
  chat asciiRuntime 0 (post (VString (js "Good Day")))
  = chat asciiRuntime 0 (post (VString (js "gOOD dAY"))).
Proof.
  apply (answer_ignores_ascii_case asciiRuntime 0 (js "Good Day") (js "gOOD dAY"));
    reflexivity.
Defined.

(** * The page *)

Section PageFacts.

Variable b : Browser.

Lemma displayMessage_user (message backendSignature : JSValue) (p : Page) :
  displayMessage b (js "user") message backendSignature p
  = appendMessage (userBubble (setTextContent b message)) p.
Proof. reflexivity. Qed.

Lemma displayMessage_bot (message backendSignature : JSValue) (p : Page) :
  displayMessage b (js "bot") message backendSignature p
  = appendMessage
      (botBubble
         (if ToBoolean backendSignature
          then setTextContent b message
               ++ [signatureSpan (setTextContent b backendSignature)]
          else setTextContent b message)) p.
Proof.
  unfold displayMessage.
  change (string_eqb (js "bot") (js "user")) with false. cbv iota.
  destruct backendSignature; reflexivity.
Qed.

Lemma setTextContent_string (c : Z) (s : jsstring) :
  setTextContent b (VString (c :: s)) = [TextNode (c :: s)].
Proof. reflexivity. Qed.

(** A send that goes through: the page and the request at the [await]. *)
Lemma sendMessageBegin_some (p : Page) :
  trim (inputValue p) <> [] ->
  sendMessageBegin b p
  = Some ({| chatMessages :=
               chatMessages p ++ [userBubble [TextNode (trim (inputValue p))]];
             inputValue := inputValue p;
             inputDisabled := true;
             inputFocused := false;
             buttonDisabled := true;
             loadingClasses := classList_remove (js "hidden") (loadingClasses p) |},
          {| url := js "/api/chat";
             method := js "POST";
             headers := [(js "Content-Type", js "application/json")];
             payload := VObject [(js "message", VString (trim (inputValue p)))] |}).
Proof.
  intros Ht. unfold sendMessageBegin.
  destruct (trim (inputValue p)) as [|c t]; [contradiction|]. reflexivity.
Qed.

Lemma sendMessageBegin_none (p : Page) :
  trim (inputValue p) = [] -> sendMessageBegin b p = None.
Proof. intros Ht. unfold sendMessageBegin. rewrite Ht. reflexivity. Qed.

(** What is left of a send once [fetch] has settled, whatever the result:
    one bot bubble more, and the [finally] block. *)
Lemma sendMessageEnd_shape (result : FetchResult) (q : Page) :
  exists content,
    sendMessageEnd b result q
    = {| chatMessages := chatMessages q ++ [botBubble content];
         inputValue := [];
         inputDisabled := false;
         inputFocused := true;
         buttonDisabled := false;
         loadingClasses := classList_add (js "hidden") (loadingClasses q) |}.
Proof.
  unfold sendMessageEnd.
  assert (H : exists content,
             match sendMessageTry b result q with
             | Return p' => p'
             | Throw _ => sendMessageCatch b q
             end = appendMessage (botBubble content) q).
  { unfold sendMessageCatch.
    destruct (sendMessageTry b result q) as [p'|e] eqn:E;
      [|rewrite displayMessage_bot; eexists; reflexivity].
    unfold sendMessageTry in E.
    destruct result as [e | st [data | e]]; try discriminate E.
    cbn [bind] in E. destruct (responseOk st).
    - destruct (readProp b data (js "response")); [|discriminate E].
      cbn [bind] in E.
      destruct (readProp b data (js "backendSignature")); [|discriminate E].
      cbn [bind] in E. injection E as <-.
      rewrite displayMessage_bot. eexists; reflexivity.
    - destruct (readProp b data (js "error")); [|discriminate E].
      cbn [bind] in E. injection E as <-.
      rewrite displayMessage_bot. eexists; reflexivity. }
  destruct H as [content ->]. exists content. reflexivity.
Qed.

End PageFacts.

Lemma trim_again_not_blank (s : jsstring) : trim s <> [] -> trim (trim s) <> [].
Proof.
  intros Hs Ht. apply Hs. apply trim_nil. apply trim_nil in Ht.
  destruct (trim_split s) as [lead [trail [E [Hl Htr]]]].
  rewrite E, !forallb_app, Hl, Ht, Htr. reflexivity.
Qed.

Lemma classList_add_In (token : jsstring) (classes : list jsstring) :
  In token (classList_add token classes).
Proof.
  unfold classList_add.
  destruct (existsb (fun c => string_eqb c token) classes) eqn:E.
  - apply existsb_exists in E as [c [Hc Heq]].
    apply string_eqb_eq in Heq. subst c. exact Hc.
  - apply in_or_app. right. left. reflexivity.
Qed.

Lemma classList_remove_In (token c : jsstring) (classes : list jsstring) :
  In c (classList_remove token classes) <-> In c classes /\ c <> token.
Proof.
  unfold classList_remove. rewrite filter_In, negb_true_iff.
  split; intros [H1 H2]; (split; [exact H1|]).
  - intros ->. rewrite (proj2 (string_eqb_eq token token) eq_refl) in H2.
    discriminate.
  - destruct (string_eqb c token) eqn:E; [|reflexivity].
    apply string_eqb_eq in E. contradiction.
Qed.

(** Nothing happens when the input holds white space only: the page is
    left as it is and no request is made. *)
Theorem blank_input_sends_nothing
  (b : Browser) (network : FetchRequest -> FetchResult) (p : Page) :
  trim (inputValue p) = [] ->
  sendMessageBegin b p = None
  /\ sendMessage b network p = p
  /\ onKeypress b network (js "Enter") p = p.
Proof.
  intros Ht. pose proof (sendMessageBegin_none b p Ht) as H.
  unfold onKeypress. change (string_eqb (js "Enter") (js "Enter")) with true.
  cbv iota. unfold sendMessage. rewrite H. auto.
Qed.

Lemma blank_input_sends_nothing_witness :
  sendMessage plainBrowser
    (fun _ => Resolved 200 (Return (VObject []))) (pageWith [32; 9; 160])
  = pageWith [32; 9; 160].
Proof.
  refine (proj1 (proj2 (blank_input_sends_nothing plainBrowser _
                          (pageWith [32; 9; 160]) _))).
  reflexivity.
Defined.

(** The page posts the trimmed text as [{"message": ...}] to /api/chat,
    and the handler never rejects what the page posts: given that body,
    it answers HTTP 200. *)
Theorem page_request_is_accepted
  (b : Browser) (p q : Page) (request : FetchRequest) :
  sendMessageBegin b p = Some (q, request) ->
  url request = js "/api/chat"
  /\ method request = js "POST"
  /\ headers request = [(js "Content-Type", js "application/json")]
  /\ payload request = VObject [(js "message", VString (trim (inputValue p)))]
  /\ forall rt now, status (chat rt now {| body := payload request |}) = 200.
Proof.
  intros H.
  assert (Ht : trim (inputValue p) <> []).
  { intros Ht. rewrite (sendMessageBegin_none b p Ht) in H. discriminate. }
  rewrite (sendMessageBegin_some b p Ht) in H. injection H as <- <-.
  cbn [url method headers payload]. repeat split.
  intros rt now.
  rewrite (chat_accepted rt now _ (trim (inputValue p)));
    [reflexivity | reflexivity | apply trim_again_not_blank, Ht].
Qed.

Lemma page_request_is_accepted_witness :
  status (chat asciiRuntime 0
            {| body := VObject [(js "message", VString (js "good day"))] |})
  = 200.
Proof.
  destruct (sendMessageBegin plainBrowser (pageWith (js "  good day ")))
    as [[q request]|] eqn:E; [|discriminate E].
  pose proof (page_request_is_accepted plainBrowser _ q request E)
    as [_ [_ [_ [Hp H]]]].
  specialize (H asciiRuntime 0). rewrite Hp in H. exact H.
Defined.

(** A send that goes through, from the click to the end of [finally]. *)
Lemma sendMessage_shape
  (b : Browser) (network : FetchRequest -> FetchResult) (p : Page) :
  trim (inputValue p) <> [] ->
  exists content,
    sendMessage b network p
    = {| chatMessages :=
           chatMessages p
           ++ [userBubble [TextNode (trim (inputValue p))]; botBubble content];
         inputValue := [];
         inputDisabled := false;
         inputFocused := true;
         buttonDisabled := false;
         loadingClasses :=
           classList_add (js "hidden")
             (classList_remove (js "hidden") (loadingClasses p)) |}.
Proof.
  intros Ht. unfold sendMessage. rewrite (sendMessageBegin_some b p Ht).
  match goal with
  | |- context [sendMessageEnd b ?r ?q] =>
      destruct (sendMessageEnd_shape b r q) as [content ->]
  end.
  exists content. cbn [chatMessages loadingClasses].
  rewrite <- app_assoc. reflexivity.
Qed.

(** However the request ends (an answer, an error status, a body that is
    not JSON, no network), the page is usable again afterwards: the input
    is empty and enabled, the button is enabled and the loading indicator
    is hidden. *)
Theorem controls_restored_after_send
  (b : Browser) (network : FetchRequest -> FetchResult) (p : Page) :
  trim (inputValue p) <> [] ->
  let p' := sendMessage b network p in
  inputValue p' = []
  /\ inputDisabled p' = false
  /\ buttonDisabled p' = false
  /\ In (js "hidden") (loadingClasses p').
Proof.
  intros Ht p'. subst p'.
  destruct (sendMessage_shape b network p Ht) as [content ->].
  cbn [inputValue inputDisabled buttonDisabled loadingClasses].
  repeat split. apply classList_add_In.
Qed.

Lemma controls_restored_after_send_witness :
  inputDisabled
    (sendMessage plainBrowser
       (fun _ => Rejected {| errName := js "TypeError";
                             errMessage := js "Failed to fetch" |})
       (pageWith (js "test")))
  = false.
Proof.
  refine (proj1 (proj2 (controls_restored_after_send plainBrowser _
                          (pageWith (js "test")) _))).
  vm_compute. discriminate.
Defined.

(** The input field has the focus after a send, whether it had it before
    or not: [focus()] is called once the field is enabled again. *)
Theorem focus_returns_to_input
  (b : Browser) (network : FetchRequest -> FetchResult) (p : Page) :
  trim (inputValue p) <> [] ->
  inputFocused (sendMessage b network p) = true.
Proof.
  intros Ht.
  destruct (sendMessage_shape b network p Ht) as [content ->]. reflexivity.
Qed.

Lemma focus_returns_to_input_witness :
  inputFocused
    (sendMessage plainBrowser (fun _ => Resolved 502 (Throw {|
                                 errName := js "SyntaxError";
                                 errMessage := js "Unexpected token <" |}))
       (pageWith (js "test")))
  = true.
Proof.
  apply (focus_returns_to_input plainBrowser _ (pageWith (js "test"))).
  vm_compute. discriminate.
Defined.

(** A send only adds to the thread, and adds exactly two bubbles: the
    user's, with the trimmed text and nothing else in it, then one bubble
    of the bot. *)
Theorem send_adds_two_bubbles
  (b : Browser) (network : FetchRequest -> FetchResult) (p : Page) :
  trim (inputValue p) <> [] ->
  exists content,
    chatMessages (sendMessage b network p)
    = chatMessages p
      ++ [userBubble [TextNode (trim (inputValue p))]; botBubble content].
Proof.
  intros Ht. destruct (sendMessage_shape b network p Ht) as [content ->].
  exists content. reflexivity.
Qed.

Lemma send_adds_two_bubbles_witness :
  exists content,
    chatMessages
      (sendMessage plainBrowser (fun _ => Resolved 200 (Return (VObject [])))
         (pageWith (js " test ")))
    = [userBubble [TextNode (js "test")]; botBubble content].
Proof.
  destruct (send_adds_two_bubbles plainBrowser
              (fun _ => Resolved 200 (Return (VObject [])))
              (pageWith (js " test "))) as [content H].
  - vm_compute. discriminate.
  - exists content. exact H.
Defined.

(** While the request is under way the input and the button are disabled,
    the loading indicator is shown, the typed text is still in the input
    and the user's bubble is already in the thread. *)
Theorem page_while_request_is_under_way
  (b : Browser) (p q : Page) (request : FetchRequest) :
  sendMessageBegin b p = Some (q, request) ->
  inputDisabled q = true
  /\ buttonDisabled q = true
  /\ ~ In (js "hidden") (loadingClasses q)
  /\ inputValue q = inputValue p
  /\ chatMessages q
     = chatMessages p ++ [userBubble [TextNode (trim (inputValue p))]].
Proof.
  intros H.
  assert (Ht : trim (inputValue p) <> []).
  { intros Ht. rewrite (sendMessageBegin_none b p Ht) in H. discriminate. }
  rewrite (sendMessageBegin_some b p Ht) in H. injection H as <- _.
  cbn [inputDisabled buttonDisabled loadingClasses inputValue chatMessages].
  repeat split.
  intros Hin. apply classList_remove_In in Hin as [_ Hin]. apply Hin.
  reflexivity.
Qed.

Lemma page_while_request_is_under_way_witness :
  exists q request,
    sendMessageBegin plainBrowser (pageWith (js "test")) = Some (q, request)
    /\ inputDisabled q = true.
Proof.
  destruct (sendMessageBegin plainBrowser (pageWith (js "test")))
    as [[q request]|] eqn:E; [|discriminate E].
  exists q, request. split; [reflexivity|].
  exact (proj1 (page_while_request_is_under_way plainBrowser _ q request E)).
Defined.

(** When [fetch] fails, when the body of the answer is not JSON, or when
    it is the JSON [null], the bot's bubble shows the network error text
    and nothing else, whatever the status. *)
Theorem failed_request_shows_network_error
  (b : Browser) (q : Page) (e : JSError) (st : Z) :
  let shown r := chatMessages (sendMessageEnd b r q) in
  let bubble := chatMessages q ++ [botBubble [TextNode networkErrorText]] in
  shown (Rejected e) = bubble
  /\ shown (Resolved st (Throw e)) = bubble
  /\ shown (Resolved st (Return VNull)) = bubble.
Proof.
  intros shown bubble. subst shown bubble. repeat split.
  unfold sendMessageEnd, sendMessageTry. cbn [bind].
  destruct (responseOk st); reflexivity.
Qed.

(** An answer with an error status is shown as "Error: " and the text of
    its [error] field; when the field is missing or empty, the text is
    "An unexpected error occurred on the server.".  No signature is
    shown. *)
Theorem error_status_shows_error_text
  (b : Browser) (q : Page) (st : Z) (data : JSValue) :
  responseOk st = false ->
  data <> VUndefined -> data <> VNull ->
  (forall c e, getProp data (js "error") = VString (c :: e) ->
     chatMessages (sendMessageEnd b (Resolved st (Return data)) q)
     = chatMessages q ++ [botBubble [TextNode (js "Error: " ++ c :: e)]])
  /\ (ToBoolean (getProp data (js "error")) = false ->
      chatMessages (sendMessageEnd b (Resolved st (Return data)) q)
      = chatMessages q
        ++ [botBubble [TextNode (js "Error: " ++ serverErrorText)]]).
Proof.
  intros Hok H1 H2.
  assert (Hr : readProp b data (js "error")
               = Return (getProp data (js "error")))
    by (destruct data; try reflexivity; contradiction).
  split.
  - intros c e He. unfold sendMessageEnd, sendMessageTry. cbn [bind].
    rewrite Hok, Hr. cbn [bind]. rewrite He. reflexivity.
  - intros He. unfold sendMessageEnd, sendMessageTry. cbn [bind].
    rewrite Hok, Hr. cbn [bind]. rewrite He. reflexivity.
Qed.

Lemma error_status_shows_error_text_witness :
  chatMessages
    (sendMessageEnd plainBrowser (Resolved 404 (Return (VObject [])))
       (pageWith []))
  = [botBubble [TextNode (js "Error: An unexpected error occurred on the server.")]].
Proof.
  refine (proj2 (error_status_shows_error_text plainBrowser (pageWith []) 404
                   (VObject []) _ _ _) _).
  - reflexivity.
  - discriminate.
  - discriminate.
  - reflexivity.
Defined.

(** An answer with an OK status whose body has neither [response] nor
    [backendSignature] gives an empty bubble: no text, no signature, no
    error message. *)
Theorem ok_answer_without_fields_shows_empty_bubble
  (b : Browser) (q : Page) (st : Z) (data : JSValue) :
  responseOk st = true ->
  data <> VUndefined -> data <> VNull ->
  getProp data (js "response") = VUndefined ->
  ToBoolean (getProp data (js "backendSignature")) = false ->
  chatMessages (sendMessageEnd b (Resolved st (Return data)) q)
  = chatMessages q ++ [botBubble []].
Proof.
  intros Hok H1 H2 Hresp Hsig.
  assert (Hr : forall key, readProp b data key = Return (getProp data key))
    by (intros key; destruct data; try reflexivity; contradiction).
  unfold sendMessageEnd, sendMessageTry. cbn [bind].
  rewrite Hok, !Hr. cbn [bind]. rewrite displayMessage_bot, Hresp, Hsig.
  reflexivity.
Qed.

Lemma ok_answer_without_fields_shows_empty_bubble_witness :
  chatMessages
    (sendMessageEnd plainBrowser (Resolved 204 (Return (VObject [])))
       (pageWith []))
  = [botBubble []].
Proof.
  apply (ok_answer_without_fields_shows_empty_bubble plainBrowser (pageWith [])
           204 (VObject []));
    try reflexivity; discriminate.
Defined.

(** The page and the handler together: when the network delivers the
    handler's answer, every send shows the user's trimmed text and then
    the bot's reply to it (the greeting, or the echo of the trimmed text)
    with the "Processed" signature under it.  The validation error and
    the internal error cannot come up this way. *)
Theorem page_shows_reply_and_signature
  (b : Browser) (rt : Runtime) (now : Z) (p : Page) :
  trim (inputValue p) <> [] ->
  let text := trim (inputValue p) in
  chatMessages (sendMessage b (deliver rt now) p)
  = chatMessages p
    ++ [ userBubble [TextNode text];
         botBubble
           [ TextNode (if greets (toLowerCase rt text) then greeting
                       else js "BOT SAYS: " ++ toUpperCase rt text);
             signatureSpan
               [TextNode (js "Processed by EchoBot 9000 @ "
                          ++ Date.toISOString now)] ] ].
Proof.
  intros Ht text. subst text. unfold sendMessage.
  rewrite (sendMessageBegin_some b p Ht). unfold deliver. cbn [payload].
  rewrite (chat_accepted rt now
             {| body := VObject [(js "message", VString (trim (inputValue p)))] |}
             (trim (inputValue p)) eq_refl (trim_again_not_blank _ Ht)).
  unfold sendMessageEnd, sendMessageTry. cbn [status json ok bind].
  change (responseOk 200) with true. cbv iota.
  destruct (greets (toLowerCase rt (trim (inputValue p))));
    match goal with
    | |- _ = ?l ++ [?x; ?y] =>
        change (l ++ [x; y]) with (l ++ ([x] ++ [y]));
        rewrite (app_assoc l [x] [y])
    end; reflexivity.
Qed.

Lemma page_shows_reply_and_signature_witness :
  chatMessages (sendMessage plainBrowser (deliver asciiRuntime 0)
                  (pageWith (js "  test ")))
  = [ userBubble [TextNode (js "test")];
      botBubble
        [ TextNode (js "BOT SAYS: TEST");
          signatureSpan
            [TextNode (js "Processed by EchoBot 9000 @ 1970-01-01T00:00:00.000Z")] ] ].
Proof.
  refine (page_shows_reply_and_signature plainBrowser asciiRuntime 0
            (pageWith (js "  test ")) _).
  vm_compute. discriminate.
Defined.

Lemma NoDup_snoc {A} (l : list A) (x : A) :
  NoDup l -> ~ In x l -> NoDup (l ++ [x]).
Proof.
  intros Hl Hx. induction Hl as [|y l Hy Hl IH]; simpl.
  - constructor; [intros []| constructor].
  - constructor.
    + intros Hin. apply in_app_or in Hin as [Hin | [-> | []]].
      * contradiction.
      * apply Hx. left. reflexivity.
    + apply IH. intros Hin. apply Hx. right. exact Hin.
Qed.

(** The class list of the loading indicator stays a set through a send:
    no class is lost, none is repeated, and "hidden" is the only class
    that can come in. *)
Theorem loading_classes_are_kept
  (b : Browser) (network : FetchRequest -> FetchResult) (p : Page) :
  trim (inputValue p) <> [] ->
  NoDup (loadingClasses p) ->
  NoDup (loadingClasses (sendMessage b network p))
  /\ forall c, In c (loadingClasses (sendMessage b network p))
               <-> In c (loadingClasses p) \/ c = js "hidden".
Proof.
  intros Ht Hnd.
  destruct (sendMessage_shape b network p Ht) as [content ->].
  cbn [loadingClasses].
  assert (Hout : ~ In (js "hidden")
                     (classList_remove (js "hidden") (loadingClasses p))).
  { intros Hin. apply classList_remove_In in Hin as [_ Hin]. apply Hin.
    reflexivity. }
  assert (Hadd : classList_add (js "hidden")
                   (classList_remove (js "hidden") (loadingClasses p))
                 = classList_remove (js "hidden") (loadingClasses p)
                   ++ [js "hidden"]).
  { unfold classList_add.
    destruct (existsb _ _) eqn:E; [|reflexivity].
    apply existsb_exists in E as [c [Hc Heq]]. apply string_eqb_eq in Heq.
    subst c. contradiction. }
  rewrite Hadd. split.
  - apply NoDup_snoc; [|exact Hout].
    unfold classList_remove. apply NoDup_filter, Hnd.
  - intros c. rewrite in_app_iff, classList_remove_In. cbn [In].
    destruct (string_eqb c (js "hidden")) eqn:E.
    + apply string_eqb_eq in E. subst c. split; auto.
    + assert (c <> js "hidden")
        by (intros ->; rewrite (proj2 (string_eqb_eq _ _) eq_refl) in E;
            discriminate).
      split.
      * intros [[H1 _] | [H1 | []]]; auto.
      * intros [H1 | H1]; [left; auto | contradiction].
Qed.

Lemma loading_classes_are_kept_witness :
  NoDup (loadingClasses
           (sendMessage plainBrowser (deliver asciiRuntime 0)
              (pageWith (js "test")))).
Proof.
  refine (proj1 (loading_classes_are_kept plainBrowser (deliver asciiRuntime 0)
                   (pageWith (js "test")) _ _)).
  - vm_compute. discriminate.
  - unfold pageWith, loadingMarkup. cbn [loadingClasses].
    repeat (constructor;
            [intros H; cbn [In] in H;
             repeat (destruct H as [H | H]; [vm_compute in H; discriminate|]);
             exact H|]).
    constructor.
Defined.

(** A second send right after a first one does nothing: the first one
    left the input empty, so that a repeated click or Enter cannot post
    the same text twice. *)
Theorem second_send_does_nothing
  (b : Browser) (first second : FetchRequest -> FetchResult) (p : Page) :
  sendMessage b second (sendMessage b first p) = sendMessage b first p.
Proof.
  destruct (trim (inputValue p)) as [|c t] eqn:Ht.
  - assert (H : sendMessage b first p = p)
      by (unfold sendMessage; rewrite (sendMessageBegin_none b p Ht);
          reflexivity).
    rewrite H. unfold sendMessage.
    rewrite (sendMessageBegin_none b p Ht). reflexivity.
  - assert (Hne : trim (inputValue p) <> []) by (rewrite Ht; discriminate).
    destruct (sendMessage_shape b first p Hne) as [content ->].
    reflexivity.
Qed.
